(** * The Docker client of watchtower: container replacement protocol

    A shallow embedding of [container/client.go]: the shutdown sequencer
    ([StopContainer], [waitForStop]), the recreation engine
    ([StartContainer]), the staleness detector ([IsContainerStale]) and the
    command executor ([ExecuteCommand]).

    The Docker daemon is an external collaborator.  It is a parameter of the
    development: a record of operations over an abstract daemon state, one
    per API method the client calls.  Every client function is a state
    transformer over a [World] that holds the daemon state, a logical clock,
    the trace of the daemon calls issued so far (each with the reply it
    got) and the log lines written. *)

From Stdlib Require Import ZArith String List Lia DecimalString.
From Stdlib Require DecimalFacts DecimalPos.
From stdpp Require Import base option list gmap strings.

Local Open Scope string_scope.
Local Open Scope list_scope.
Local Open Scope Z_scope.

(** ** Errors and results *)

(** Go's [error] values.  A nil error is [None] in [option error].  The
    client never looks inside an error, so three shapes are enough: the
    daemon's not-found answer, any other failure of a daemon call, and the
    errors the client builds itself with [fmt.Errorf]. *)
Inductive error : Type :=
| ErrNotFound (msg : string)
| ErrDaemon (msg : string)
| ErrFormatted (format : string) (args : list string).


(** A Go pair [(value, err)] of which the value is used only when [err] is
    nil. *)
Inductive result (A : Type) : Type :=
| Ok (a : A)
| Err (e : error).
Arguments Ok {A} a.
Arguments Err {A} e.

Module fmt.
Definition Errorf (format : string) (args : list string) : error :=
  ErrFormatted format args.
End fmt.

(** ** The Docker API types the client touches

    Go's embedded structs are flattened, and pointer fields hold their
    pointee: the snapshots come from an inspection, which fills them. *)

Module EndpointSettings.
Record t : Type := mk {
  NetworkID : string;
  IPAddress : string;
  Aliases : list string }.
End EndpointSettings.

Module NetworkingConfig.
Record t : Type := mk { EndpointsConfig : gmap string EndpointSettings.t }.
End NetworkingConfig.

Module NetworkSettings.
Record t : Type := mk { Networks : gmap string EndpointSettings.t }.
End NetworkSettings.

Module HostConfig.
Record t : Type := mk {
  AutoRemove : bool;
  NetworkMode : string;
  Binds : list string }.
End HostConfig.

(** [NetworkMode.IsHost] of the Docker library. *)
Definition IsHost (n : string) : bool := String.eqb n "host".

Module Config.
Record t : Type := mk {
  Image : string;
  Env : list string;
  Cmd : list string;
  Labels : gmap string string }.
End Config.

Module ContainerState.
Record t : Type := mk { Running : bool; Restarting : bool }.
End ContainerState.

Module ContainerJSON.
Record t : Type := mk {
  ID : string;
  Image : string;
  Name : string;
  State : ContainerState.t;
  HostConfig : HostConfig.t;
  Config : Config.t;
  NetworkSettings : NetworkSettings.t }.
End ContainerJSON.

Module ImageInspect.
Record t : Type := mk { ID : string; RepoDigests : list string }.
End ImageInspect.

Module ContainerRemoveOptions.
Record t : Type := mk { RemoveVolumes : bool; RemoveLinks : bool; Force : bool }.
End ContainerRemoveOptions.

(** The only privilege function the client ever installs. *)
Inductive PrivilegeFunc : Type := DefaultAuthHandler.

Module ImagePullOptions.
Record t : Type := mk {
  RegistryAuth : string;
  PrivilegeFunc : option PrivilegeFunc }.
(** Go's zero value [types.ImagePullOptions{}]. *)
Definition zero : t := mk "" None.
End ImagePullOptions.

Module ExecConfig.
Record t : Type := mk {
  Tty : bool;
  AttachStderr : bool;
  AttachStdout : bool;
  Detach : bool;
  Cmd : list string }.
End ExecConfig.

Module ExecStartCheck.
Record t : Type := mk { Detach : bool; Tty : bool }.
End ExecStartCheck.

(** An open stream handed out by the daemon (a pull response, the output of
    an exec session). *)
Definition Stream : Type := nat.

(** ** The container snapshot *)

(** [Container] of [container/container.go]: the two inspection results
    captured together. *)
Record Container : Type := NewContainer {
  containerInfo : ContainerJSON.t;
  imageInfo : ImageInspect.t }.

(** ** Trace of daemon calls and log lines *)

(** One constructor per API method, with the arguments of the call and,
    last, the reply it got. *)
Inductive Event : Type :=
| EvContainerInspect (containerID : string) (reply : result ContainerJSON.t)
| EvContainerKill (containerID signal : string) (reply : option error)
| EvContainerRemove (containerID : string) (options : ContainerRemoveOptions.t)
    (reply : option error)
| EvContainerCreate (config : Config.t) (hostConfig : HostConfig.t)
    (networkingConfig : NetworkingConfig.t) (containerName : string)
    (reply : result string)
| EvNetworkDisconnect (networkID containerID : string) (force : bool)
    (reply : option error)
| EvNetworkConnect (networkID containerID : string)
    (config : EndpointSettings.t) (reply : option error)
| EvContainerStart (containerID : string) (reply : option error)
| EvImagePull (ref : string) (options : ImagePullOptions.t)
    (reply : result Stream)
| EvReadAll (response : Stream) (reply : option error)
| EvClose (response : Stream)
| EvImageInspectWithRaw (imageID : string) (reply : result ImageInspect.t)
| EvContainerExecCreate (container : string) (config : ExecConfig.t)
    (reply : result string)
| EvContainerExecAttach (execID : string) (config : ExecConfig.t)
    (reply : result Stream)
| EvContainerExecStart (execID : string) (config : ExecStartCheck.t)
    (reply : option error)
| EvReadFrom (response : Stream) (reply : Z * string * option error)
| EvContainerExecInspect (execID : string) (reply : result Z).

Inductive Level : Type := DebugLevel | InfoLevel | ErrorLevel.

Inductive value : Type :=
| VStr (s : string)
| VInt (z : Z)
| VErr (e : error).

(** A logrus line: the level, the format string ([None] for the unformatted
    [log.Error]) and the arguments, kept unrendered. *)
Record LogEntry : Type := Log {
  level : Level;
  format : option string;
  args : list value }.

(** ** The daemon *)

(** A daemon call answers with its reply, the next daemon state and the time
    the call took, in nanoseconds. *)
Definition Resp (D A : Type) : Type := A * D * N.

(** The methods of [dockerclient.Client] that [client.go] calls, the reads
    of the streams the daemon hands out, and the two collaborators from
    elsewhere: [EncodedAuth] of this package's registry-auth file and
    [strings.TrimSpace]. *)
Record DockerAPI (D : Type) : Type := {
  ContainerInspect : string -> D -> Resp D (result ContainerJSON.t);
  ContainerKill : string -> string -> D -> Resp D (option error);
  ContainerRemove :
    string -> ContainerRemoveOptions.t -> D -> Resp D (option error);
  ContainerCreate :
    Config.t -> HostConfig.t -> NetworkingConfig.t -> string -> D ->
    Resp D (result string);
  NetworkDisconnect : string -> string -> bool -> D -> Resp D (option error);
  NetworkConnect :
    string -> string -> EndpointSettings.t -> D -> Resp D (option error);
  ContainerStart : string -> D -> Resp D (option error);
  ImagePull : string -> ImagePullOptions.t -> D -> Resp D (result Stream);
  ReadAll : Stream -> D -> Resp D (option error);
  Close : Stream -> D -> Resp D unit;
  ImageInspectWithRaw : string -> D -> Resp D (result ImageInspect.t);
  ContainerExecCreate :
    string -> ExecConfig.t -> D -> Resp D (result string);
  ContainerExecAttach :
    string -> ExecConfig.t -> D -> Resp D (result Stream);
  ContainerExecStart :
    string -> ExecStartCheck.t -> D -> Resp D (option error);
  ReadFrom : Stream -> D -> Resp D (Z * string * option error);
  ContainerExecInspect : string -> D -> Resp D (result Z);
  EncodedAuth : string -> result string;
  TrimSpace : string -> string }.

Arguments ContainerInspect {D}.
Arguments ContainerKill {D}.
Arguments ContainerRemove {D}.
Arguments ContainerCreate {D}.
Arguments NetworkDisconnect {D}.
Arguments NetworkConnect {D}.
Arguments ContainerStart {D}.
Arguments ImagePull {D}.
Arguments ReadAll {D}.
Arguments Close {D}.
Arguments ImageInspectWithRaw {D}.
Arguments ContainerExecCreate {D}.
Arguments ContainerExecAttach {D}.
Arguments ContainerExecStart {D}.
Arguments ReadFrom {D}.
Arguments ContainerExecInspect {D}.
Arguments EncodedAuth {D}.
Arguments TrimSpace {D}.

(** The methods of [Container] that [client.go] calls; they live in
    [container/container.go]. *)
Class ContainerMethods : Type := {
  Name : Container -> string;
  ID : Container -> string;
  StopSignal : Container -> string;
  ImageName : Container -> string;
  runtimeConfig : Container -> Config.t;
  hostConfig : Container -> HostConfig.t }.

(** [dockerClient]: the API handle and the pull switch. *)
Record dockerClient (D : Type) : Type := NewClient {
  api : DockerAPI D;
  pullImages : bool }.
Arguments NewClient {D}.
Arguments api {D}.
Arguments pullImages {D}.

(** ** The world and its monad *)

Record World (D : Type) : Type := mkWorld {
  daemon : D;
  now : Z;
  trace : list Event;
  logged : list LogEntry }.
Arguments mkWorld {D}.
Arguments daemon {D}.
Arguments now {D}.
Arguments trace {D}.
Arguments logged {D}.

Definition M (D A : Type) : Type := World D -> A * World D.

Definition ret {D A} (a : A) : M D A := fun w => (a, w).

Definition bind {D A B} (m : M D A) (k : A -> M D B) : M D B :=
  fun w => let (a, w1) := m w in k a w1.

Declare Scope go_scope.
Delimit Scope go_scope with go.
Notation "x <- m ;; k" := (bind m (fun x => k))
  (at level 100, m at next level, right associativity) : go_scope.
Notation "m ;; k" := (bind m (fun _ => k))
  (at level 100, right associativity) : go_scope.

(** Issue one daemon call: the daemon moves on, the clock advances by the
    time the call took, and the call is appended to the trace with its
    reply. *)
Definition call {D A} (ev : A -> Event) (op : D -> Resp D A) : M D A :=
  fun w =>
    let '(a, d, dt) := op (daemon w) in
    (a, mkWorld d (now w + Z.of_N dt) (trace w ++ [ev a]) (logged w)).

Definition write {D} (e : LogEntry) : M D unit :=
  fun w => (tt, mkWorld (daemon w) (now w) (trace w) (logged w ++ [e])).

Module log.
Definition Debugf {D} (f : string) (a : list value) : M D unit :=
  write (Log DebugLevel (Some f) a).
Definition Infof {D} (f : string) (a : list value) : M D unit :=
  write (Log InfoLevel (Some f) a).
Definition Errorf {D} (f : string) (a : list value) : M D unit :=
  write (Log ErrorLevel (Some f) a).
Definition Error {D} (a : list value) : M D unit :=
  write (Log ErrorLevel None a).
End log.

(** ** Time *)

(** [time.Second], in nanoseconds. *)
Definition Second : Z := 1000000000.

(** The goroutine's own pace.  Between two of its operations a goroutine
    takes time of its own: its statements are not instantaneous and the
    scheduler may hold it back.  The client notices this only when it looks
    at a timer; [lag w] is the time that has gone by, on top of the calls
    and sleeps, when in world [w] it comes to do so.  Nothing is assumed of
    it. *)
Class GoScheduler (D : Type) : Type := { lag : World D -> N }.

Module time.
(** [time.Sleep d]: the clock moves on by [d]. *)
Definition Sleep {D} (d : Z) : M D unit :=
  fun w => (tt, mkWorld (daemon w) (now w + d) (trace w) (logged w)).
(** [time.After d] is the instant the timer channel becomes ready; a
    receive from it succeeds from that instant on. *)
Definition After {D} (d : Z) : M D Z := fun w => (now w + d, w).
(** The [case <-timer] of a [select] that has a [default]: the goroutine
    gets to look at the channel after its lag, and the receive succeeds if
    the timer's instant has come by then. *)
Definition Fired {D} {scheduler : GoScheduler D} (timer : Z) : M D bool :=
  fun w =>
    let w0 :=
      mkWorld (daemon w) (now w + Z.of_N (lag w)) (trace w) (logged w) in
    (timer <=? now w0, w0).
End time.

Definition defaultStopSignal : string := "SIGTERM".

(** ** Ranging over a Go map

    Go leaves the order of [for k, v := range m] open and varies it from one
    loop to the next.  [mapRange site m] is the order the runtime picks for
    the loop at [site]; all that is known of it is that it goes through the
    entries of [m] once each. *)
Class GoRuntime : Type := {
  mapRange :
    nat -> gmap string EndpointSettings.t -> list (string * EndpointSettings.t);
  mapRange_perm : forall site m, mapRange site m ≡ₚ map_to_list m }.

(** A loop whose body may return an error, which ends the loop. *)
Fixpoint forEach {D A} (l : list A) (body : A -> M D (option error))
  : M D (option error) :=
  match l with
  | [] => ret None
  | x :: l' =>
      bind (body x) (fun err =>
        match err with
        | Some e => ret (Some e)
        | None => forEach l' body
        end)
  end.

Definition newline : string := String (Ascii.ascii_of_nat 10) EmptyString.

Section Client.

Context {D : Type} {methods : ContainerMethods} {runtime : GoRuntime}
  {scheduler : GoScheduler D}.
Variable client : dockerClient D.

Local Open Scope go_scope.

(** The loop of [waitForStop].  Every turn that does not return sleeps one
    second, so the loop returns within [waitTime / Second + 2] turns;
    [fuel] bounds the turns and [None] means it ran out. *)
Fixpoint waitLoop (fuel : nat) (c : Container) (timeout : Z) (w : World D)
  : option (option error * World D) :=
  match fuel with
  | O => None
  | S fuel' =>
      let (fired, w0) := time.Fired timeout w in
      if fired then Some (None, w0)
      else
        let (r, w1) :=
          call (EvContainerInspect (ID c))
               (ContainerInspect (api client) (ID c)) w0 in
        match r with
        | Err err => Some (Some err, w1)
        | Ok ci =>
            if negb (ContainerState.Running (ContainerJSON.State ci))
            then Some (None, w1)
            else
              let (_, w2) := time.Sleep Second w1 in
              waitLoop fuel' c timeout w2
        end
  end.

(** Turns that always suffice for a wait of [waitTime]. *)
Definition turns (waitTime : Z) : nat := Z.to_nat (waitTime / Second) + 2.

(** [waitForStop].  The fuel given is enough ([waitLoop_turns] below), so
    the last branch is never taken. *)
Definition waitForStop (c : Container) (waitTime : Z) : M D (option error) :=
  fun w =>
    let (timeout, w0) := time.After waitTime w in
    match waitLoop (turns waitTime) c timeout w0 with
    | Some r => r
    | None => (None, w0)
    end.

Definition StopContainer (c : Container) (timeout : Z) : M D (option error) :=
  let signal :=
    if String.eqb (StopSignal c) "" then defaultStopSignal
    else StopSignal c in
  log.Infof "Stopping %s (%s) with %s"
    [VStr (Name c); VStr (ID c); VStr signal] ;;
  err <- call (EvContainerKill (ID c) signal)
              (ContainerKill (api client) (ID c) signal) ;;
  match err with
  | Some e => ret (Some e)
  | None =>
      waitForStop c timeout ;;
      err <-
        (if HostConfig.AutoRemove (ContainerJSON.HostConfig (containerInfo c))
         then
           log.Debugf "AutoRemove container %s, skipping ContainerRemove call."
             [VStr (ID c)] ;;
           ret None
         else
           log.Debugf "Removing container %s" [VStr (ID c)] ;;
           let options := ContainerRemoveOptions.mk false false true in
           call (EvContainerRemove (ID c) options)
                (ContainerRemove (api client) (ID c) options)) ;;
      match err with
      | Some e => ret (Some e)
      | None =>
          err <- waitForStop c timeout ;;
          match err with
          | None =>
              ret (Some (fmt.Errorf "Container %s (%s) could not be removed"
                           [Name c; ID c]))
          | Some _ => ret None
          end
      end
  end.

(** *** Named blocks of [StopContainer], for the statements below *)

(** The signal sent: the container's own, or the default. *)
Definition signalOf (c : Container) : string :=
  if String.eqb (StopSignal c) "" then defaultStopSignal
  else StopSignal c.

(** First block: announce and send the kill. *)
Definition signalled (c : Container) : M D (option error) :=
  log.Infof "Stopping %s (%s) with %s"
    [VStr (Name c); VStr (ID c); VStr (signalOf c)] ;;
  call (EvContainerKill (ID c) (signalOf c))
       (ContainerKill (api client) (ID c) (signalOf c)).

Definition removeOptions : ContainerRemoveOptions.t :=
  ContainerRemoveOptions.mk false false true.

(** Third block: the removal, or its omission for an auto-remove
    container. *)
Definition removal (c : Container) : M D (option error) :=
  if HostConfig.AutoRemove (ContainerJSON.HostConfig (containerInfo c))
  then
    log.Debugf "AutoRemove container %s, skipping ContainerRemove call."
      [VStr (ID c)] ;;
    ret None
  else
    log.Debugf "Removing container %s" [VStr (ID c)] ;;
    call (EvContainerRemove (ID c) removeOptions)
         (ContainerRemove (api client) (ID c) removeOptions).

(** Everything up to and including the removal block: the kill, the first
    wait and the removal.  Its error, if any, is the kill's or the
    remove's. *)
Definition removalRequested (c : Container) (timeout : Z)
  : M D (option error) :=
  err <- signalled c ;;
  match err with
  | Some e => ret (Some e)
  | None => waitForStop c timeout ;; removal c
  end.

Definition couldNotBeRemoved (c : Container) : error :=
  fmt.Errorf "Container %s (%s) could not be removed"
    [Name c; ID c].

(** [simpleNetworkConfig] of [StartContainer]: the first entry the range
    yields, alone; nothing when the map is empty. *)
Definition simpleNetworkConfig (networkConfig : NetworkingConfig.t)
  : NetworkingConfig.t :=
  let oneEndpoint : gmap string EndpointSettings.t :=
    match mapRange 0 (NetworkingConfig.EndpointsConfig networkConfig) with
    | [] => ∅
    | (k, v) :: _ => <[k := v]> ∅
    end in
  NetworkingConfig.mk oneEndpoint.

Definition StartContainer (c : Container) : M D (string * option error) :=
  let config := runtimeConfig c in
  let hostConfig := hostConfig c in
  let networkConfig :=
    NetworkingConfig.mk
      (NetworkSettings.Networks (ContainerJSON.NetworkSettings (containerInfo c))) in
  let simpleNetworkConfig := simpleNetworkConfig networkConfig in
  let name := Name c in
  log.Infof "Creating %s" [VStr name] ;;
  r <- call (EvContainerCreate config hostConfig simpleNetworkConfig name)
            (ContainerCreate (api client) config hostConfig simpleNetworkConfig name) ;;
  match r with
  | Err err => ret ("", Some err)
  | Ok creationID =>
      err <-
        (if negb (IsHost (HostConfig.NetworkMode hostConfig)) then
           err <-
             forEach
               (mapRange 1 (NetworkingConfig.EndpointsConfig simpleNetworkConfig))
               (fun kv =>
                  call (EvNetworkDisconnect (fst kv) creationID true)
                       (NetworkDisconnect (api client) (fst kv) creationID true)) ;;
           match err with
           | Some e => ret (Some e)
           | None =>
               forEach
                 (mapRange 2 (NetworkingConfig.EndpointsConfig networkConfig))
                 (fun kv =>
                    call (EvNetworkConnect (fst kv) creationID (snd kv))
                         (NetworkConnect (api client) (fst kv) creationID (snd kv)))
           end
         else ret None) ;;
      match err with
      | Some e => ret ("", Some e)
      | None =>
          log.Debugf "Starting container %s (%s)" [VStr name; VStr creationID] ;;
          err <- call (EvContainerStart creationID)
                      (ContainerStart (api client) creationID) ;;
          match err with
          | Some e => ret ("", Some e)
          | None => ret (creationID, None)
          end
      end
  end.

Definition IsContainerStale (c : Container) : M D (bool * option error) :=
  let oldImageInfo := imageInfo c in
  let imageName := ImageName c in
  (* The inspection and the comparison that end the function; [deferred] is
     what [defer] has registered by then and runs at each return. *)
  let compare (deferred : M D unit) : M D (bool * option error) :=
    r <- call (EvImageInspectWithRaw imageName)
              (ImageInspectWithRaw (api client) imageName) ;;
    match r with
    | Err err => deferred ;; ret (false, Some err)
    | Ok newImageInfo =>
        if negb (String.eqb (ImageInspect.ID newImageInfo)
                            (ImageInspect.ID oldImageInfo))
        then
          log.Infof "Found new %s image (%s)"
            [VStr imageName; VStr (ImageInspect.ID newImageInfo)] ;;
          deferred ;; ret (true, None)
        else
          log.Debugf "No new images found for %s" [VStr (Name c)] ;;
          deferred ;; ret (false, None)
    end in
  if pullImages client then
    log.Debugf "Pulling %s for %s" [VStr imageName; VStr (Name c)] ;;
    match EncodedAuth (api client) imageName with
    | Err err =>
        log.Debugf "Error loading authentication credentials %s" [VErr err] ;;
        ret (false, Some err)
    | Ok auth =>
        opts <-
          (if String.eqb auth "" then
             log.Debugf "No authentication credentials found for %s"
               [VStr imageName] ;;
             ret ImagePullOptions.zero
           else ret (ImagePullOptions.mk auth (Some DefaultAuthHandler))) ;;
        r <- call (EvImagePull imageName opts)
                  (ImagePull (api client) imageName opts) ;;
        match r with
        | Err err =>
            log.Debugf "Error pulling image %s, %s" [VStr imageName; VErr err] ;;
            ret (false, Some err)
        | Ok response =>
            (* the error of the read is assigned and never looked at *)
            call (EvReadAll response) (ReadAll (api client) response) ;;
            compare (call (fun _ => EvClose response)
                          (Close (api client) response))
        end
    end
  else compare (ret tt).

Definition ExecuteCommand (containerID command : string) : M D (option error) :=
  let execConfig := ExecConfig.mk true true true false ["sh"; "-c"; command] in
  r <- call (EvContainerExecCreate containerID execConfig)
            (ContainerExecCreate (api client) containerID execConfig) ;;
  match r with
  | Err err => ret (Some err)
  | Ok execID =>
      let attachConfig := ExecConfig.mk true true true false [] in
      attach <- call (EvContainerExecAttach execID attachConfig)
                     (ContainerExecAttach (api client) execID attachConfig) ;;
      match attach with
      | Err attachErr =>
          log.Errorf "Failed to extract command exec logs: %v" [VErr attachErr]
      | Ok _ => ret tt
      end ;;
      let execStartCheck := ExecStartCheck.mk false true in
      err <- call (EvContainerExecStart execID execStartCheck)
                  (ContainerExecStart (api client) execID execStartCheck) ;;
      match err with
      | Some e => ret (Some e)
      | None =>
          execOutput <-
            match attach with
            | Ok response =>
                rd <- call (EvReadFrom response) (ReadFrom (api client) response) ;;
                let '(written, contents, err) := rd in
                match err with
                | Some e => log.Error [VErr e] ;; ret ""
                | None =>
                    if 0 <? written then ret (TrimSpace (api client) contents)
                    else ret ""
                end
            | Err _ => ret ""
            end ;;
          let deferred : M D unit :=
            match attach with
            | Ok response =>
                call (fun _ => EvClose response) (Close (api client) response)
            | Err _ => ret tt
            end in
          r <- call (EvContainerExecInspect execID)
                    (ContainerExecInspect (api client) execID) ;;
          match r with
          | Err err => deferred ;; ret (Some err)
          | Ok exitCode =>
              (if 0 <? exitCode then
                 log.Errorf "Command exited with code %v." [VInt exitCode] ;;
                 log.Error [VStr execOutput]
               else if (0 <? String.length execOutput)%nat then
                 log.Infof ("Command output:" +:+ newline +:+ "%v")
                   [VStr execOutput]
               else ret tt) ;;
              deferred ;; ret None
          end
      end
  end.

End Client.

(** ** What a run adds to the trace and to the log *)

Definition reply {D A} (r : Resp D A) : A := fst (fst r).

Definition emitted {D} (w w' : World D) : list Event :=
  drop (length (trace w)) (trace w').

Definition written {D} (w w' : World D) : list LogEntry :=
  drop (length (logged w)) (logged w').

Definition isRemove (ev : Event) : bool :=
  match ev with EvContainerRemove _ _ _ => true | _ => false end.

Definition isNetworkCall (ev : Event) : bool :=
  match ev with
  | EvNetworkDisconnect _ _ _ _ | EvNetworkConnect _ _ _ _ => true
  | _ => false
  end.

(** The daemon calls one polling wait on container [id] can make, against
    the error it returns: inspections that find the container running, then
    either nothing more (the timer fired), an inspection that finds it
    stopped, or an inspection that fails. *)
Inductive polled (id : string) : option error -> list Event -> Prop :=
| polled_timeout : polled id None []
| polled_stopped ci :
    ContainerState.Running (ContainerJSON.State ci) = false ->
    polled id None [EvContainerInspect id (Ok ci)]
| polled_failed e : polled id (Some e) [EvContainerInspect id (Err e)]
| polled_running ci r evs :
    ContainerState.Running (ContainerJSON.State ci) = true ->
    polled id r evs ->
    polled id r (EvContainerInspect id (Ok ci) :: evs).

Definition inspectedOk (id : string) (ev : Event) : Prop :=
  exists ci, ev = EvContainerInspect id (Ok ci).

Definition isCreateOrStart (ev : Event) : bool :=
  match ev with
  | EvContainerCreate _ _ _ _ _ | EvContainerStart _ _ => true
  | _ => false
  end.

(** The lines [ExecuteCommand] logs about the output of the command before
    it knows the exit code: one for a failed attach, one for a failed read
    of the output. *)
Definition outputFailures (evs : list Event) : list LogEntry :=
  flat_map
    (fun ev =>
       match ev with
       | EvContainerExecAttach _ _ (Err e) =>
           [Log ErrorLevel (Some "Failed to extract command exec logs: %v")
              [VErr e]]
       | EvReadFrom _ (_, _, Some e) => [Log ErrorLevel None [VErr e]]
       | _ => []
       end) evs.

(** The output [ExecuteCommand] captured: what the read of the attached
    stream gave, trimmed, when the read succeeded and gave anything. *)
Fixpoint capturedOutput (trim : string -> string) (evs : list Event) : string :=
  match evs with
  | [] => ""
  | EvReadFrom _ (written, contents, None) :: _ =>
      if 0 <? written then trim contents else ""
  | EvReadFrom _ (_, _, Some _) :: _ => ""
  | _ :: evs' => capturedOutput trim evs'
  end.

(** ** The daemon's network bookkeeping *)

(** Modelled from the spec: the daemon's side of network membership, which
    is no code of this repository (sections 4.4 and 6).  A container is
    created attached to the networks of the networking config passed at
    creation; a disconnect detaches it from the named network, a connect
    attaches it with the endpoint settings given.  Calls the daemon rejected
    and calls about other containers change nothing. *)
Definition attachStep (id : string) (m : gmap string EndpointSettings.t)
  (ev : Event) : gmap string EndpointSettings.t :=
  match ev with
  | EvContainerCreate _ _ networkingConfig _ (Ok created) =>
      if String.eqb created id
      then NetworkingConfig.EndpointsConfig networkingConfig else m
  | EvNetworkDisconnect k target _ None =>
      if String.eqb target id then delete k m else m
  | EvNetworkConnect k target v None =>
      if String.eqb target id then <[k := v]> m else m
  | _ => m
  end.

(** The networks container [id] is attached to after the calls [evs]. *)
Definition membership (id : string) (evs : list Event)
  : gmap string EndpointSettings.t :=
  foldl (attachStep id) ∅ evs.

(** ** [strings.TrimSpace]

    Go's library function, on UTF-8 text: the white space Unicode defines
    is cut off both ends.  A byte that begins no white-space character,
    be it part of another character or of no valid encoding at all, ends the
    cut. *)

Module strings.

Definition code (a : Ascii.ascii) : Z := Z.of_N (Ascii.N_of_ascii a).

(** White space of one byte: tab, line feed, vertical tab, form feed,
    carriage return and space. *)
Definition space1 (a : Ascii.ascii) : bool :=
  (9 <=? code a) && (code a <=? 13) || (code a =? 32).

(** Of two bytes: U+0085 (C2 85) and U+00A0 (C2 A0). *)
Definition space2 (a b : Ascii.ascii) : bool :=
  (code a =? 194) && ((code b =? 133) || (code b =? 160)).

(** Of three bytes: U+1680 (E1 9A 80), U+2000 to U+200A (E2 80 80 to
    E2 80 8A), U+2028 and U+2029 (E2 80 A8, E2 80 A9), U+202F (E2 80 AF),
    U+205F (E2 81 9F) and U+3000 (E3 80 80). *)
Definition space3 (a b c : Ascii.ascii) : bool :=
  (code a =? 225) && (code b =? 154) && (code c =? 128)
  || (code a =? 226) && (code b =? 128)
     && ((128 <=? code c) && (code c <=? 138)
         || (code c =? 168) || (code c =? 169) || (code c =? 175))
  || (code a =? 226) && (code b =? 129) && (code c =? 159)
  || (code a =? 227) && (code b =? 128) && (code c =? 128).

(** Cut the characters recognised by [p1], [p2] and [p3] off the front. *)
Fixpoint trimStart (p1 : Ascii.ascii -> bool)
    (p2 : Ascii.ascii -> Ascii.ascii -> bool)
    (p3 : Ascii.ascii -> Ascii.ascii -> Ascii.ascii -> bool) (s : string) : string :=
  match s with
  | String a s1 =>
      if p1 a then trimStart p1 p2 p3 s1
      else
        match s1 with
        | String b s2 =>
            if p2 a b then trimStart p1 p2 p3 s2
            else
              match s2 with
              | String c s3 =>
                  if p3 a b c then trimStart p1 p2 p3 s3 else s
              | EmptyString => s
              end
        | EmptyString => s
        end
  | EmptyString => s
  end.

Definition reversed (s : string) : string :=
  string_of_list_ascii (List.rev (list_ascii_of_string s)).

Definition TrimSpace (s : string) : string :=
  let front := trimStart space1 space2 space3 s in
  reversed
    (trimStart space1 (fun b a => space2 a b) (fun c b a => space3 a b c)
       (reversed front)).

End strings.

(** ** A scripted daemon, for running the client on concrete inputs *)

Module Mock.

(** What the scripted daemon remembers: whether the container still exists,
    whether it runs, and the id the image reference resolves to. *)
Record state : Type := mkState {
  present : bool;
  running : bool;
  image : string }.

Record script : Type := mkScript {
  inspectFails : option error;
  killReply : option error;
  killStops : bool;
  removeReply : option error;
  removeDeletes : bool;
  createReply : result string;
  authReply : result string;
  pullReply : result Stream;
  pulledImage : string;
  drainReply : option error;
  inspectImageFails : option error;
  attachReply : result Stream;
  output : string;
  exitCode : Z }.

Definition info (id : string) (run : bool) : ContainerJSON.t :=
  ContainerJSON.mk id "sha256:aaa" "web"
    (ContainerState.mk run false)
    (HostConfig.mk false "bridge" [])
    (Config.mk "web:latest" [] [] ∅)
    (NetworkSettings.mk ∅).

Definition docker (s : script) : DockerAPI state := {|
  ContainerInspect id d :=
    (match inspectFails s with
     | Some e => Err e
     | None =>
         if present d then Ok (info id (running d))
         else Err (ErrNotFound "No such container")
     end, d, 0%N);
  ContainerKill id signal d :=
    (killReply s,
     match killReply s with
     | None => mkState (present d) (running d && negb (killStops s)) (image d)
     | Some _ => d
     end, 0%N);
  ContainerRemove id options d :=
    (removeReply s,
     match removeReply s with
     | None => mkState (present d && negb (removeDeletes s)) (running d) (image d)
     | Some _ => d
     end, 0%N);
  ContainerCreate config hostConfig networkingConfig name d :=
    (createReply s, d, 0%N);
  NetworkDisconnect networkID id force d := (None, d, 0%N);
  NetworkConnect networkID id config d := (None, d, 0%N);
  ContainerStart id d := (None, d, 0%N);
  ImagePull ref options d :=
    (pullReply s,
     match pullReply s with
     | Ok _ => mkState (present d) (running d) (pulledImage s)
     | Err _ => d
     end, 0%N);
  ReadAll response d := (drainReply s, d, 0%N);
  Close response d := (tt, d, 0%N);
  ImageInspectWithRaw ref d :=
    (match inspectImageFails s with
     | Some e => Err e
     | None => Ok (ImageInspect.mk (image d) [])
     end, d, 0%N);
  ContainerExecCreate id config d := (Ok "exec1", d, 0%N);
  ContainerExecAttach execID config d := (attachReply s, d, 0%N);
  ContainerExecStart execID config d := (None, d, 0%N);
  ReadFrom response d :=
    ((Z.of_nat (String.length (output s)), output s, None), d, 0%N);
  ContainerExecInspect execID d := (Ok (exitCode s), d, 0%N);
  EncodedAuth ref := authReply s;
  TrimSpace := strings.TrimSpace |}.

(** A daemon that accepts everything and forgets a container once it is
    removed. *)
Definition obliging : script := {|
  inspectFails := None;
  killReply := None;
  killStops := true;
  removeReply := None;
  removeDeletes := true;
  createReply := Ok "c2";
  authReply := Ok "";
  pullReply := Ok 1%nat;
  pulledImage := "sha256:bbb";
  drainReply := None;
  inspectImageFails := None;
  attachReply := Ok 2%nat;
  output := "ok";
  exitCode := 0 |}.

(** The same daemon with one answer changed. *)
Definition withInspect (e : error) (s : script) : script :=
  mkScript (Some e) (killReply s) (killStops s) (removeReply s)
    (removeDeletes s) (createReply s) (authReply s) (pullReply s)
    (pulledImage s) (drainReply s) (inspectImageFails s) (attachReply s)
    (output s) (exitCode s).

Definition withKill (r : option error) (s : script) : script :=
  mkScript (inspectFails s) r (killStops s) (removeReply s)
    (removeDeletes s) (createReply s) (authReply s) (pullReply s)
    (pulledImage s) (drainReply s) (inspectImageFails s) (attachReply s)
    (output s) (exitCode s).

Definition withRemove (r : option error) (deletes : bool) (s : script)
  : script :=
  mkScript (inspectFails s) (killReply s) (killStops s) r deletes
    (createReply s) (authReply s) (pullReply s) (pulledImage s)
    (drainReply s) (inspectImageFails s) (attachReply s) (output s)
    (exitCode s).

Definition withAuth (r : result string) (s : script) : script :=
  mkScript (inspectFails s) (killReply s) (killStops s) (removeReply s)
    (removeDeletes s) (createReply s) r (pullReply s) (pulledImage s)
    (drainReply s) (inspectImageFails s) (attachReply s) (output s)
    (exitCode s).

Definition withDrain (r : option error) (s : script) : script :=
  mkScript (inspectFails s) (killReply s) (killStops s) (removeReply s)
    (removeDeletes s) (createReply s) (authReply s) (pullReply s)
    (pulledImage s) r (inspectImageFails s) (attachReply s) (output s)
    (exitCode s).

Definition withExit (code : Z) (out : string) (s : script) : script :=
  mkScript (inspectFails s) (killReply s) (killStops s) (removeReply s)
    (removeDeletes s) (createReply s) (authReply s) (pullReply s)
    (pulledImage s) (drainReply s) (inspectImageFails s) (attachReply s)
    out code.

(** A daemon that accepts the remove call and yet keeps the container. *)
Definition stubborn : script := withRemove None false obliging.

(** A daemon that rejects a kill, as Docker does for a container it does
    not know. *)
Definition strict : script :=
  withKill (Some (ErrNotFound "No such container: c1")) obliging.

(** The methods of [Container], read off the snapshot. *)
Definition methods : ContainerMethods := {|
  Name c := ContainerJSON.Name (containerInfo c);
  ID c := ContainerJSON.ID (containerInfo c);
  StopSignal c := "";
  ImageName c := Config.Image (ContainerJSON.Config (containerInfo c));
  runtimeConfig c := ContainerJSON.Config (containerInfo c);
  hostConfig c := ContainerJSON.HostConfig (containerInfo c) |}.

(** A goroutine that is never held back, and one that takes a microsecond
    to get to each look at its timer. *)
Definition prompt : GoScheduler state := {| lag _ := 0%N |}.

Definition sluggish : GoScheduler state := {| lag _ := 1000%N |}.

(** A runtime that ranges over a map in the order of [map_to_list]. *)
Definition runtime : GoRuntime := {|
  mapRange _ m := map_to_list m;
  mapRange_perm _ m := reflexivity (map_to_list m) |}.

(** A runtime that ranges the other way round. *)
Definition backwards : GoRuntime := {|
  mapRange _ m := reverse (map_to_list m);
  mapRange_perm _ m := reverse_Permutation (map_to_list m) |}.

Definition endpoint (ip : string) : EndpointSettings.t :=
  EndpointSettings.mk "" ip [].

(** A container on the networks [nets], with the given auto-remove flag and
    network mode. *)
Definition container (autoRemove : bool) (mode : string)
  (nets : gmap string EndpointSettings.t) : Container :=
  NewContainer
    (ContainerJSON.mk "c1" "sha256:aaa" "web"
       (ContainerState.mk true false)
       (HostConfig.mk autoRemove mode [])
       (Config.mk "web:latest" [] [] ∅)
       (NetworkSettings.mk nets))
    (ImageInspect.mk "sha256:aaa" []).

Definition twoNets : gmap string EndpointSettings.t :=
  <["A" := endpoint "10.0.0.2"]> (<["B" := endpoint "10.0.1.2"]> ∅).


(** A daemon that cannot be reached for inspections. *)
Definition unreachable : script :=
  withInspect (ErrDaemon "Cannot connect to the Docker daemon") obliging.

(** A daemon that knows the container no more. *)
Definition vanished : script :=
  withInspect (ErrNotFound "No such container") obliging.

(** Daemons on which the command ends with the given exit code after
    printing "boom". *)
Definition exiting (code : Z) : script := withExit code "boom" obliging.

Definition web : Container := container false "bridge" twoNets.

(** The same container with no network of its own, as one that shares the
    network of another container has. *)
Definition netless : Container := container false "container:db" ∅.

Definition onHost : Container := container false "host" twoNets.

Definition client (s : script) (pull : bool) : dockerClient state :=
  NewClient (docker s) pull.

Definition start : World state :=
  mkWorld (mkState true true "sha256:aaa") 0 [] [].

(** The world in which the newer image is in the local store already. *)
Definition pulled : World state :=
  mkWorld (mkState true true "sha256:bbb") 0 [] [].

(** The world in which the container is gone already. *)
Definition gone : World state :=
  mkWorld (mkState false false "sha256:aaa") 0 [] [].

End Mock.

(** ** Snapshots: [GetContainer] and [ListContainers] *)

(** An entry of the daemon's container listing ([types.Container]); the
    client reads its [ID] only. *)
Module ContainerSummary.
Record t : Type := mk {
  ID : string;
  Names : list string;
  Image : string }.
End ContainerSummary.

(** [Filter] of this package: the predicate a listing is cut down by. *)
Definition Filter : Type := Container -> bool.

(** A daemon call of a method outside [DockerAPI]: the daemon moves on and
    the clock advances as for [call]; the trace, which has entries for the
    methods of [DockerAPI] only, stays as it is. *)
Definition request {D A} (op : D -> Resp D A) : M D A :=
  fun w =>
    let '(a, d, dt) := op (daemon w) in
    (a, mkWorld d (now w + Z.of_N dt) (trace w) (logged w)).

Section Snapshots.

Context {D : Type}.
Variable client : dockerClient D.
(** [ContainerList] of the Docker API, with the zero list options the
    client passes. *)
Variable ContainerList : D -> Resp D (result (list ContainerSummary.t)).

Local Open Scope go_scope.

Definition GetContainer (containerID : string) : M D (result Container) :=
  r <- call (EvContainerInspect containerID)
            (ContainerInspect (api client) containerID) ;;
  match r with
  | Err err => ret (Err err)
  | Ok containerInfo =>
      r <- call (EvImageInspectWithRaw (ContainerJSON.Image containerInfo))
                (ImageInspectWithRaw (api client)
                   (ContainerJSON.Image containerInfo)) ;;
      match r with
      | Err err => ret (Err err)
      | Ok imageInfo => ret (Ok (NewContainer containerInfo imageInfo))
      end
  end.

(** The loop of [ListContainers]: [cs] is the slice built so far. *)
Fixpoint listLoop (fn : Filter) (runningContainers : list ContainerSummary.t)
    (cs : list Container) : M D (result (list Container)) :=
  match runningContainers with
  | [] => ret (Ok cs)
  | runningContainer :: rest =>
      r <- GetContainer (ContainerSummary.ID runningContainer) ;;
      match r with
      | Err err => ret (Err err)
      | Ok container =>
          listLoop fn rest (if fn container then cs ++ [container] else cs)
      end
  end.

Definition ListContainers (fn : Filter) : M D (result (list Container)) :=
  write (Log DebugLevel None [VStr "Retrieving running containers"]) ;;
  r <- request ContainerList ;;
  match r with
  | Err err => ret (Err err)
  | Ok runningContainers => listLoop fn runningContainers []
  end.

End Snapshots.

(** The two calls that make the snapshot [c] of container [id]. *)
Definition snapshotCalls (id : string) (c : Container) : list Event :=
  [EvContainerInspect id (Ok (containerInfo c));
   EvImageInspectWithRaw (ContainerJSON.Image (containerInfo c))
     (Ok (imageInfo c))].

(** ** Reading a trace *)

(** The error a call was answered with, if it was. *)
Definition rejection (ev : Event) : option error :=
  match ev with
  | EvContainerInspect _ (Err e) | EvContainerCreate _ _ _ _ (Err e)
  | EvImagePull _ _ (Err e) | EvImageInspectWithRaw _ (Err e)
  | EvContainerExecCreate _ _ (Err e) | EvContainerExecAttach _ _ (Err e)
  | EvContainerExecInspect _ (Err e) => Some e
  | EvContainerKill _ _ r | EvContainerRemove _ _ r
  | EvNetworkDisconnect _ _ _ r | EvNetworkConnect _ _ _ r
  | EvContainerStart _ r | EvReadAll _ r | EvContainerExecStart _ _ r => r
  | EvReadFrom _ (_, _, r) => r
  | _ => None
  end.

Definition isKill (ev : Event) : bool :=
  match ev with EvContainerKill _ _ _ => true | _ => false end.

Definition isClose (ev : Event) : bool :=
  match ev with EvClose _ => true | _ => false end.

(** The calls of the shutdown sequence that address container [id]. *)
Definition stopsContainer (id : string) (ev : Event) : bool :=
  match ev with
  | EvContainerKill target _ _ | EvContainerRemove target _ _
  | EvContainerInspect target _ => String.eqb target id
  | _ => false
  end.

(** The stream an attach handed out, if it did. *)
Definition attachedStream (attached : result Stream) : option Stream :=
  match attached with
  | Ok response => Some response
  | Err _ => None
  end.

(** The calls that belong to the exec session [execID] whose attached
    stream is [stream]: those that name the session, and the reads and
    closes of that very stream.  With no stream attached no read and no
    close belongs to it. *)
Definition onSession (execID : string) (stream : option Stream) (ev : Event)
  : bool :=
  match ev with
  | EvContainerExecAttach id _ _ | EvContainerExecStart id _ _
  | EvContainerExecInspect id _ => String.eqb id execID
  | EvReadFrom response _ | EvClose response =>
      match stream with
      | Some attached => Nat.eqb response attached
      | None => false
      end
  | _ => false
  end.

Module MockList.

(** A daemon listing two containers. *)
Definition two : Mock.state -> Resp Mock.state (result (list ContainerSummary.t)) :=
  fun d =>
    (Ok [ContainerSummary.mk "c1" ["/web"] "web:latest";
         ContainerSummary.mk "c9" ["/db"] "db:latest"], d, 0%N).

(** A daemon that fails to list. *)
Definition failing : Mock.state -> Resp Mock.state (result (list ContainerSummary.t)) :=
  fun d => (Err (ErrDaemon "Cannot connect to the Docker daemon"), d, 0%N).

(** The filter that keeps the container "c9". *)
Definition onlyC9 : Filter :=
  fun c => String.eqb (ContainerJSON.ID (containerInfo c)) "c9".

(** Daemons that reject the pull, fail the attach, and a registry for which
    credentials are configured. *)
Definition noPull : Mock.script :=
  Mock.mkScript None None true None true (Ok "c2") (Ok "")
    (Err (ErrDaemon "manifest unknown")) "sha256:bbb" None None (Ok 2%nat)
    "ok" 0.

Definition noAttach : Mock.script :=
  Mock.mkScript None None true None true (Ok "c2") (Ok "") (Ok 1%nat)
    "sha256:bbb" None None (Err (ErrDaemon "connection hijack failed")) "ok" 0.

Definition withCredentials : Mock.script :=
  Mock.withAuth (Ok "dXNlcjpwdw==") Mock.obliging.

End MockList.

(** ** The test doubles of package [mocks] *)

(** Go's [int] on the 64-bit platforms watchtower is built for: the result
    of an addition, wrapped. *)
Definition int64 (z : Z) : Z := (z + 2 ^ 63) mod 2 ^ 64 - 2 ^ 63.

(** [strconv.Itoa]: the decimal rendering, with a minus sign for a negative
    number. *)
Definition Itoa (n : Z) : string := NilZero.string_of_int (Z.to_int n).

Fixpoint repeated (s : string) (n : nat) : string :=
  match n with
  | O => ""
  | S n' => s +:+ repeated s n'
  end.

(** [strings.Repeat], which panics on a negative count: [None]. *)
Definition Repeat (s : string) (count : Z) : option string :=
  if count <? 0 then None else Some (repeated s (Z.to_nat count)).

Module mocks.

(** [types.ContainerJSON] as the mocks fill it: the pointer fields they
    leave nil are [None]. *)
Record ContainerJSON : Type := mkJSON {
  ID : string;
  Image : string;
  Name : string;
  State : option ContainerState.t;
  Created : string;
  HostConfig : option HostConfig.t;
  Config : option Config.t;
  NetworkSettings : option NetworkSettings.t }.

(** What [container.NewContainer] makes of the two pointers. *)
Record Container : Type := NewContainer {
  containerInfo : ContainerJSON;
  imageInfo : ImageInspect.t }.

Section Progress.

(** [fmt.Sprintf] of a format and one integer, and the text of
    [time.Now()]. *)
Variable Sprintf : string -> Z -> string.
Variable Now : string.

Definition CreateMockContainerWithConfig (id name image : string)
    (running restarting : bool) (created : string) (config : option Config.t)
  : Container :=
  let content :=
    mkJSON id image name
      (Some (ContainerState.mk running restarting))
      created
      (Some (HostConfig.mk false "" []))
      config
      None in
  NewContainer content (ImageInspect.mk image []).

Definition CreateContainerForProgress (index idPrefix : Z)
    (nameFormat : string) : option (Container * string) :=
  let indexStr := Itoa (int64 (idPrefix + index)) in
  match Repeat "0" (61 - Z.of_nat (String.length indexStr)) with
  | None => None
  | Some zeros =>
      let mockID := indexStr +:+ zeros in
      let contID := "c79" +:+ mockID in
      let contName := Sprintf nameFormat (int64 (index + 1)) in
      let oldImgID := "01d" +:+ mockID in
      let newImgID := "d0a" +:+ mockID in
      let imageName := "mock/" +:+ contName +:+ ":latest" in
      let config := Config.mk imageName [] [] ∅ in
      let c :=
        CreateMockContainerWithConfig contID contName oldImgID true false Now
          (Some config) in
      Some (c, newImgID)
  end.

End Progress.

End mocks.

(** Bring nested appends to the right-nested form and compare. *)
Ltac reassoc :=
  repeat (progress (simpl; rewrite <- ?app_assoc)); try reflexivity.

Section WaitFacts.

Context {D : Type} {methods : ContainerMethods}
  {scheduler : GoScheduler D}.
Variable client : dockerClient D.

Lemma emitted_app (w w' : World D) evs :
  trace w' = trace w ++ evs -> emitted w w' = evs.
Proof. unfold emitted. intros ->. by rewrite drop_app_length. Qed.

Lemma written_app (w w' : World D) ls :
  logged w' = logged w ++ ls -> written w w' = ls.
Proof. unfold written. intros ->. by rewrite drop_app_length. Qed.

Lemma call_trace {A} (ev : A -> Event) (op : D -> Resp D A) (w : World D) :
  trace (call ev op w).2 = trace w ++ [ev (call ev op w).1]
  /\ logged (call ev op w).2 = logged w.
Proof. unfold call. by destruct (op (daemon w)) as [[a d] dt]. Qed.



Lemma polled_err_last id e evs :
  polled id (Some e) evs ->
  exists pre, evs = pre ++ [EvContainerInspect id (Err e)]
              /\ Forall (inspectedOk id) pre.
Proof.
  remember (Some e) as r eqn:Hr. induction 1; try discriminate.
  - injection Hr as ->. exists []. split; [done | constructor].
  - destruct (IHpolled Hr) as (pre & -> & Hpre).
    exists (EvContainerInspect id (Ok ci) :: pre). split; [done |].
    constructor; [by eexists | done].
Qed.

(** A wait that got an inspection error returns it; a wait whose
    inspections all succeeded returns nil. *)
Lemma polled_ok_nil id r evs :
  polled id r evs -> Forall (inspectedOk id) evs -> r = None.
Proof.
  induction 1; intros Hall; try done.
  - inversion Hall as [| ? ? [ci Hci] _]. discriminate.
  - inversion Hall; auto.
Qed.

Lemma waitLoop_polled fuel c timeout (w : World D) r w' :
  waitLoop client fuel c timeout w = Some (r, w') ->
  exists evs, trace w' = trace w ++ evs
              /\ logged w' = logged w
              /\ polled (ID c) r evs.
Proof.
  revert w. induction fuel as [| fuel IH]; intros w; simpl; [done |].
  destruct (timeout <=? now w + Z.of_N (lag w)).
  { intros [= <- <-]. exists []. rewrite app_nil_r. repeat split. constructor. }
  unfold call. simpl.
  destruct (ContainerInspect (api client) (ID c) (daemon w)) as [[a d] dt].
  destruct a as [ci | e].
  - destruct (ContainerState.Running (ContainerJSON.State ci)) eqn:Hrun; simpl.
    + intros H. apply IH in H as (evs & Ht & Hl & Hp). simpl in Ht, Hl.
      exists (EvContainerInspect (ID c) (Ok ci) :: evs).
      rewrite Ht, <- app_assoc. repeat split; [done |].
      by constructor.
    + intros [= <- <-]. eexists. simpl. repeat split. by constructor.
  - intros [= <- <-]. eexists. simpl. repeat split. constructor.
Qed.

(** Every turn that goes on sleeps a second, so the loop cannot outlast
    its fuel. *)
Lemma waitLoop_fuel fuel c timeout (w : World D) :
  timeout - now w <= Z.of_nat fuel * Second ->
  is_Some (waitLoop client (S fuel) c timeout w).
Proof.
  revert w. induction fuel as [| fuel IH]; intros w Hle.
  - simpl. destruct (Z.leb_spec timeout (now w + Z.of_N (lag w)));
      [by eexists | lia].
  - remember (S fuel) as n eqn:Hn. simpl.
    destruct (Z.leb_spec timeout (now w + Z.of_N (lag w))); [by eexists |].
    unfold call. simpl.
    destruct (ContainerInspect (api client) (ID c) (daemon w)) as [[a d] dt].
    destruct a as [ci | e]; [| by eexists].
    destruct (negb _); [by eexists |]. simpl. subst n.
    apply IH. simpl. unfold Second in *. lia.
Qed.

Lemma waitLoop_turns c waitTime (w : World D) :
  is_Some (waitLoop client (turns waitTime) c (now w + waitTime) w).
Proof.
  unfold turns. replace (Z.to_nat (waitTime / Second) + 2)%nat
    with (S (S (Z.to_nat (waitTime / Second)))) by lia.
  apply waitLoop_fuel.
  assert (0 < Second) by (unfold Second; lia).
  destruct (Z.le_gt_cases 0 waitTime).
  - pose proof (Z.mul_succ_div_gt waitTime Second ltac:(lia)).
    rewrite Nat2Z.inj_succ, Z2Nat.id by (apply Z.div_pos; lia). lia.
  - lia.
Qed.

Lemma waitForStop_polled c waitTime (w : World D) :
  exists evs,
    trace (snd (waitForStop client c waitTime w)) = trace w ++ evs
    /\ logged (snd (waitForStop client c waitTime w)) = logged w
    /\ polled (ID c) (fst (waitForStop client c waitTime w)) evs.
Proof.
  unfold waitForStop, time.After.
  destruct (waitLoop_turns c waitTime w) as [[r w'] Hrun]. rewrite Hrun.
  exact (waitLoop_polled _ _ _ _ _ _ Hrun).
Qed.

End WaitFacts.

(** Name the outcome of the next daemon call of the goal and record what
    it added to the trace. *)
Ltac step_call a w1 :=
  match goal with
  | |- context [call ?ev ?op ?w0] =>
      let Ht := fresh "Ht" in
      let Hl := fresh "Hl" in
      destruct (call_trace ev op w0) as [Ht Hl];
      destruct (call ev op w0) as [a w1]; simpl in Ht, Hl
  end.

Section StopFacts.

Context {D : Type} {methods : ContainerMethods}
  {scheduler : GoScheduler D}.
Variable client : dockerClient D.


(** [StopContainer] is its first three blocks followed by the second
    wait, whose outcome it inverts. *)
Lemma StopContainer_eq c timeout (w : World D) :
  StopContainer client c timeout w =
    let (err, w3) := removalRequested client c timeout w in
    match err with
    | Some e => (Some e, w3)
    | None =>
        let (werr, w4) := waitForStop client c timeout w3 in
        (match werr with
         | None => Some (couldNotBeRemoved c)
         | Some _ => None
         end, w4)
    end.
Proof.
  unfold StopContainer, removalRequested,
    signalled, removal, signalOf, removeOptions,
    couldNotBeRemoved, bind, ret.
  destruct (log.Infof _ _ w) as [[] w0].
  destruct (call _ _ w0) as [[e |] w1]; [done |].
  destruct (waitForStop client c timeout w1) as [r1 w2].
  destruct (HostConfig.AutoRemove _).
  - destruct (log.Debugf _ _ w2) as [[] w3].
    destruct (waitForStop client c timeout w3) as [[e |] w4]; done.
  - destruct (log.Debugf _ _ w2) as [[] w3].
    destruct (call _ _ w3) as [[e |] w4]; [done |].
    destruct (waitForStop client c timeout w4) as [[e |] w5]; done.
Qed.

Lemma signalled_trace c (w : World D) :
  trace (snd (signalled client c w)) =
    trace w ++ [EvContainerKill (ID c) (signalOf c) (fst (signalled client c w))].
Proof.
  unfold signalled, bind, log.Infof, write, call. simpl.
  by destruct (ContainerKill (api client) _ _ _) as [[a d] dt].
Qed.

Lemma removal_trace c (w : World D) :
  trace (snd (removal client c w)) =
    trace w ++
    (if HostConfig.AutoRemove (ContainerJSON.HostConfig (containerInfo c))
     then []
     else [EvContainerRemove (ID c) removeOptions (fst (removal client c w))]).
Proof.
  unfold removal, bind, ret, log.Debugf, write, call.
  destruct (HostConfig.AutoRemove _); simpl.
  - by rewrite app_nil_r.
  - by destruct (ContainerRemove (api client) _ _ _) as [[a d] dt].
Qed.

Lemma removal_autoremove c (w : World D) :
  HostConfig.AutoRemove (ContainerJSON.HostConfig (containerInfo c)) = true ->
  fst (removal client c w) = None.
Proof. unfold removal. by intros ->. Qed.

(** The three ways the first three blocks can go. *)
Lemma removalRequested_cases c timeout (w : World D) :
  (exists e, fst (signalled client c w) = Some e
             /\ removalRequested client c timeout w = (Some e, snd (signalled client c w)))
  \/ (fst (signalled client c w) = None
      /\ removalRequested client c timeout w =
           removal client c (snd (waitForStop client c timeout (snd (signalled client c w))))).
Proof.
  unfold removalRequested, bind, ret.
  destruct (signalled client c w) as [[e |] w1]; simpl.
  - left. by exists e.
  - right. split; [done |].
    by destruct (waitForStop client c timeout w1).
Qed.

(** The calls the first three blocks issue: the kill, and if it was
    accepted the polls of the first wait and (unless the container removes
    itself) one remove call. *)
Lemma removalRequested_trace c timeout (w : World D) :
  let kr := fst (signalled client c w) in
  let out := removalRequested client c timeout w in
  let kill := EvContainerKill (ID c) (signalOf c) kr in
  match kr with
  | Some e => out.1 = Some e /\ trace out.2 = trace w ++ [kill]
  | None =>
      exists r1 evs1, polled (ID c) r1 evs1 /\
        if HostConfig.AutoRemove (ContainerJSON.HostConfig (containerInfo c))
        then out.1 = None /\ trace out.2 = trace w ++ kill :: evs1
        else trace out.2 =
               trace w ++
               kill :: evs1 ++ [EvContainerRemove (ID c) removeOptions out.1]
  end.
Proof.
  intros kr out kill. subst out kill.
  pose proof (signalled_trace c w) as Hk. fold kr in Hk.
  destruct (removalRequested_cases c timeout w) as [(e & He & ->) | [Hn ->]].
  - subst kr. rewrite He in *. by split.
  - subst kr. rewrite Hn in *.
    destruct (waitForStop_polled client c timeout (snd (signalled client c w)))
      as (evs1 & Ht1 & _ & Hp1).
    eexists _, evs1. split; [exact Hp1 |].
    pose proof (removal_trace c
      (snd (waitForStop client c timeout (snd (signalled client c w))))) as Hr.
    rewrite Ht1, Hk in Hr.
    destruct (HostConfig.AutoRemove _) eqn:Hauto.
    + split; [by apply removal_autoremove |].
      rewrite Hr. by rewrite app_nil_r, <- app_assoc.
    + rewrite Hr. by rewrite <- !app_assoc.
Qed.

(** The outcome of [StopContainer] once the first three blocks went
    through: that of the second wait, inverted. *)
Lemma StopContainer_second_wait c timeout (w : World D) :
  let requested := removalRequested client c timeout w in
  let second := waitForStop client c timeout requested.2 in
  requested.1 = None ->
  StopContainer client c timeout w =
    (match second.1 with
     | None => Some (couldNotBeRemoved c)
     | Some _ => None
     end, second.2).
Proof.
  intros requested second Hreq. subst second requested.
  rewrite StopContainer_eq.
  destruct (removalRequested client c timeout w) as [r w3]. simpl in *. subst r.
  by destruct (waitForStop client c timeout w3).
Qed.

(** An error of the first three blocks is the outcome of
    [StopContainer]. *)
Lemma StopContainer_aborted c timeout (w : World D) e :
  (removalRequested client c timeout w).1 = Some e ->
  StopContainer client c timeout w =
    (Some e, (removalRequested client c timeout w).2).
Proof.
  intros Hreq. rewrite StopContainer_eq.
  destruct (removalRequested client c timeout w) as [r w3]. simpl in *.
  by subst r.
Qed.


Lemma polled_no_remove id r evs :
  polled id r evs -> List.filter isRemove evs = [].
Proof. induction 1; simpl; auto. Qed.

(** The whole trace of a run of [StopContainer]. *)
Lemma StopContainer_trace c timeout (w : World D) :
  let kr := (signalled client c w).1 in
  let out := StopContainer client c timeout w in
  let kill := EvContainerKill (ID c) (signalOf c) kr in
  match kr with
  | Some e => out.1 = Some e /\ trace out.2 = trace w ++ [kill]
  | None =>
      exists r1 evs1 evs2, polled (ID c) r1 evs1 /\
        let requested := removalRequested client c timeout w in
        let remove :=
          if HostConfig.AutoRemove (ContainerJSON.HostConfig (containerInfo c))
          then []
          else [EvContainerRemove (ID c) removeOptions requested.1] in
        trace out.2 = trace w ++ kill :: evs1 ++ remove ++ evs2
        /\ match requested.1 with
           | Some e => evs2 = [] /\ out.1 = Some e
           | None =>
               exists r2, polled (ID c) r2 evs2
                 /\ out.1 = match r2 with
                            | None => Some (couldNotBeRemoved c)
                            | Some _ => None
                            end
           end
  end.
Proof.
  intros kr out kill. subst out kill.
  pose proof (removalRequested_trace c timeout w) as Hreq. simpl in Hreq.
  fold kr in Hreq. destruct kr as [e |] eqn:Hkr.
  - destruct Hreq as [Hone Htr].
    rewrite (StopContainer_aborted _ _ _ _ Hone). by split.
  - destruct Hreq as (r1 & evs1 & Hp1 & Hreq).
    exists r1, evs1.
    destruct (removalRequested client c timeout w).1 as [e |] eqn:Hone.
    + rewrite (StopContainer_aborted _ _ _ _ Hone). exists []. simpl.
      rewrite Hone. split; [done |]. rewrite app_nil_r.
      destruct (HostConfig.AutoRemove _); [by destruct Hreq |].
      by rewrite Hreq.
    + rewrite (StopContainer_second_wait _ _ _ Hone). simpl. rewrite Hone.
      destruct (waitForStop_polled client c timeout
                  (removalRequested client c timeout w).2)
        as (evs2 & Ht2 & _ & Hp2).
      exists evs2. split; [done |]. split; [| by eexists].
      rewrite Ht2.
      destruct (HostConfig.AutoRemove _).
      * destruct Hreq as [_ ->]. reassoc.
      * rewrite Hreq. reassoc.
Qed.



(** C2. [StopContainer] returns nil only if, once removal was requested or
    skipped, an inspection of the container failed in the second wait: the
    second wait then ends on that failed inspection.  If every inspection of
    the second wait succeeded, [StopContainer] returns the error
    "Container %s (%s) could not be removed" carrying the container's name
    and id. *)
Theorem StopContainer_confirms_removal c timeout (w : World D) :
  let requested := removalRequested client c timeout w in
  let out := StopContainer client c timeout w in
  (out.1 = None ->
     requested.1 = None
     /\ out.2 = (waitForStop client c timeout requested.2).2
     /\ exists pre e,
          emitted requested.2 out.2 =
            pre ++ [EvContainerInspect (ID c) (Err e)])
  /\ (requested.1 = None ->
      Forall (inspectedOk (ID c)) (emitted requested.2 out.2) ->
      out.1 = Some (fmt.Errorf "Container %s (%s) could not be removed"
                      [Name c; ID c])).
Proof.
  intros requested out. subst requested out.
  destruct (removalRequested client c timeout w).1 as [e |] eqn:Hreq.
  { rewrite (StopContainer_aborted _ _ _ _ Hreq). by split. }
  rewrite (StopContainer_second_wait _ _ _ Hreq). simpl.
  destruct (waitForStop_polled client c timeout
              (removalRequested client c timeout w).2)
    as (evs2 & Ht2 & _ & Hp2).
  rewrite (emitted_app _ _ _ Ht2).
  destruct (waitForStop client c timeout _).1 as [e |]; split.
  - intros _. split; [done |]. split; [done |].
    destruct (polled_err_last _ _ _ Hp2) as (pre & -> & _). by exists pre, e.
  - intros _ Hall. by pose proof (polled_ok_nil _ _ _ Hp2 Hall).
  - done.
  - done.
Qed.


(** C6, as amended.  For an auto-remove container [StopContainer] issues no
    remove call.  Nor does it when the daemon rejects the kill: it returns
    the kill's error at once.  For a container that is not auto-remove and
    whose kill was accepted it issues exactly one remove call, forced and
    keeping the volumes. *)
Theorem StopContainer_removal_call c timeout (w : World D) :
  let out := StopContainer client c timeout w in
  let removes := List.filter isRemove (emitted w out.2) in
  (HostConfig.AutoRemove (ContainerJSON.HostConfig (containerInfo c)) = true ->
   removes = [])
  /\ (forall e, (signalled client c w).1 = Some e ->
        out.1 = Some e /\ removes = [])
  /\ (HostConfig.AutoRemove (ContainerJSON.HostConfig (containerInfo c)) = false ->
      (signalled client c w).1 = None ->
      exists r,
        removes =
          [EvContainerRemove (ID c)
             {| ContainerRemoveOptions.RemoveVolumes := false;
                ContainerRemoveOptions.RemoveLinks := false;
                ContainerRemoveOptions.Force := true |} r]).
Proof.
  intros out removes. subst out removes.
  pose proof (StopContainer_trace c timeout w) as Htr. simpl in Htr.
  destruct (signalled client c w).1 as [e |].
  - destruct Htr as [Hout Htr]. rewrite (emitted_app _ _ _ Htr).
    split; [done |]. split; [| done]. by intros e' [= <-].
  - destruct Htr as (r1 & evs1 & evs2 & Hp1 & Htr & Hout).
    rewrite (emitted_app _ _ _ Htr). simpl.
    assert (List.filter isRemove evs2 = []) as Hevs2.
    { destruct (removalRequested client c timeout w).1.
      - by destruct Hout as [-> _].
      - destruct Hout as (r2 & Hp2 & _). by eapply polled_no_remove. }
    rewrite !List.filter_app, Hevs2, (polled_no_remove _ _ _ Hp1), app_nil_r.
    split; [| split]; [by intros -> | done |].
    intros -> _. by eexists.
Qed.


End StopFacts.

Section StopRuns.

#[local] Existing Instance Mock.methods.
#[local] Existing Instance Mock.prompt.

Lemma StopContainer_confirms_removal_witness :
  (StopContainer (Mock.client Mock.obliging true) Mock.web (10 * Second)
     Mock.start).1 = None
  /\ (exists pre e,
        emitted
          (removalRequested (Mock.client Mock.obliging true) Mock.web
             (10 * Second) Mock.start).2
          (StopContainer (Mock.client Mock.obliging true) Mock.web
             (10 * Second) Mock.start).2
        = pre ++ [EvContainerInspect "c1" (Err e)])
  /\ (StopContainer (Mock.client Mock.stubborn true) Mock.web (10 * Second)
        Mock.start).1
     = Some (fmt.Errorf "Container %s (%s) could not be removed" ["web"; "c1"]).
Proof.
  destruct (StopContainer_confirms_removal (Mock.client Mock.obliging true)
              Mock.web (10 * Second) Mock.start) as [Hnil _].
  destruct (StopContainer_confirms_removal (Mock.client Mock.stubborn true)
              Mock.web (10 * Second) Mock.start) as [_ Herr].
  split; [reflexivity |]. split.
  - apply Hnil. reflexivity.
  - apply Herr; [reflexivity |]. vm_compute.
    repeat (constructor; try (eexists; reflexivity)).
Defined.


(** What the two waits make of inspection errors inside [StopContainer]:
    not-found in the second wait is the success signal, and so is any other
    inspection failure. *)
Example StopContainer_unreachable_daemon :
  (StopContainer (Mock.client Mock.unreachable true) Mock.web (10 * Second)
     Mock.start).1 = None.
Proof. reflexivity. Qed.


Lemma StopContainer_removal_call_witness :
  List.filter isRemove
    (emitted Mock.start
       (StopContainer (Mock.client Mock.obliging true)
          (Mock.container true "bridge" Mock.twoNets) (10 * Second)
          Mock.start).2) = []
  /\ ((StopContainer (Mock.client Mock.strict true) Mock.web (10 * Second)
         Mock.start).1 = Some (ErrNotFound "No such container: c1")
      /\ List.filter isRemove
           (emitted Mock.start
              (StopContainer (Mock.client Mock.strict true) Mock.web
                 (10 * Second) Mock.start).2) = [])
  /\ exists r,
       List.filter isRemove
         (emitted Mock.start
            (StopContainer (Mock.client Mock.obliging true) Mock.web
               (10 * Second) Mock.start).2)
       = [EvContainerRemove "c1"
            {| ContainerRemoveOptions.RemoveVolumes := false;
               ContainerRemoveOptions.RemoveLinks := false;
               ContainerRemoveOptions.Force := true |} r].
Proof.
  destruct (StopContainer_removal_call (Mock.client Mock.obliging true)
              (Mock.container true "bridge" Mock.twoNets) (10 * Second)
              Mock.start) as (Hauto & _ & _).
  destruct (StopContainer_removal_call (Mock.client Mock.strict true)
              Mock.web (10 * Second) Mock.start) as (_ & Hkill & _).
  destruct (StopContainer_removal_call (Mock.client Mock.obliging true)
              Mock.web (10 * Second) Mock.start) as (_ & _ & Hplain).
  split; [| split].
  - apply Hauto. reflexivity.
  - apply Hkill. reflexivity.
  - apply Hplain; reflexivity.
Defined.

(** C6, the claim as stated fails: the container is not auto-remove, the
    daemon rejects the kill, and no remove call is issued. *)
Lemma StopContainer_kill_rejected_counterexample :
  ~ (forall (D : Type) (methods : ContainerMethods)
       (scheduler : GoScheduler D) (client : dockerClient D)
       (c : Container) (timeout : Z) (w : World D),
       HostConfig.AutoRemove (ContainerJSON.HostConfig (containerInfo c))
         = false ->
       exists r,
         List.filter isRemove
           (emitted w (StopContainer client c timeout w).2)
         = [EvContainerRemove (ID c) removeOptions r]).
Proof.
  intros Hclaim.
  destruct (Hclaim Mock.state Mock.methods Mock.prompt
              (Mock.client Mock.strict true) Mock.web (10 * Second)
              Mock.start eq_refl) as [r Hr].
  vm_compute in Hr. discriminate Hr.
Qed.

(** The calls of that run: the kill, and nothing after it. *)
Example StopContainer_kill_rejected_run :
  StopContainer (Mock.client Mock.strict true) Mock.web (10 * Second)
    Mock.start
  = (Some (ErrNotFound "No such container: c1"),
     mkWorld (Mock.mkState true true "sha256:aaa") 0
       [EvContainerKill "c1" "SIGTERM"
          (Some (ErrNotFound "No such container: c1"))]
       [Log InfoLevel (Some "Stopping %s (%s) with %s")
          [VStr "web"; VStr "c1"; VStr "SIGTERM"]]).
Proof. reflexivity. Qed.


(** The calls of that run, and the run against a daemon that rejects the
    kill of a container it does not know: there the kill's error is
    returned. *)
Example StopContainer_gone_runs :
  emitted Mock.gone
    (StopContainer (Mock.client Mock.obliging true) Mock.web (10 * Second)
       Mock.gone).2
  = [EvContainerKill "c1" "SIGTERM" None;
     EvContainerInspect "c1" (Err (ErrNotFound "No such container"));
     EvContainerRemove "c1" removeOptions None;
     EvContainerInspect "c1" (Err (ErrNotFound "No such container"))]
  /\ (StopContainer (Mock.client Mock.strict true) Mock.web (10 * Second)
        Mock.gone).1 = Some (ErrNotFound "No such container: c1").
Proof. split; reflexivity. Qed.

(** The same container stopped with a timeout of one nanosecond by a
    goroutine that takes a microsecond to get to its timer: both waits end
    at their first look, nothing is inspected, and the error is "could not
    be removed". *)
Example StopContainer_gone_short_timeout :
  StopContainer (scheduler := Mock.sluggish) (Mock.client Mock.vanished true)
    Mock.web 1 Mock.gone
  = (Some (couldNotBeRemoved Mock.web),
     mkWorld (Mock.mkState false false "sha256:aaa") 2000
       [EvContainerKill "c1" "SIGTERM" None;
        EvContainerRemove "c1" removeOptions None]
       [Log InfoLevel (Some "Stopping %s (%s) with %s")
          [VStr "web"; VStr "c1"; VStr "SIGTERM"];
        Log DebugLevel (Some "Removing container %s") [VStr "c1"]]).
Proof. reflexivity. Qed.


End StopRuns.

Section StartFacts.

Context {D : Type} {methods : ContainerMethods} {runtime : GoRuntime}.
Variable client : dockerClient D.

(** A loop of daemon calls stops at the first call the daemon rejects. *)
Lemma forEach_call {A} (l : list A) (ev : A -> option error -> Event)
    (op : A -> D -> Resp D (option error)) (w : World D) :
  let out := forEach l (fun x => call (ev x) (op x)) w in
  logged out.2 = logged w
  /\ match out.1 with
     | None => trace out.2 = trace w ++ map (fun x => ev x None) l
     | Some e =>
         exists pre x post,
           l = pre ++ x :: post
           /\ trace out.2 =
                trace w ++ map (fun x => ev x None) pre ++ [ev x (Some e)]
     end.
Proof.
  revert w. induction l as [| x l IH]; intros w; simpl.
  { split; [done |]. by rewrite app_nil_r. }
  unfold bind, ret.
  destruct (call_trace (ev x) (op x) w) as [Ht Hl].
  destruct (call (ev x) (op x) w) as [[e |] w1]; simpl in *.
  - split; [done |]. exists [], x, l. by rewrite Ht.
  - specialize (IH w1). simpl in IH. destruct IH as [Hlog IH].
    split; [congruence |].
    destruct (forEach l _ w1).1 as [e |].
    + destruct IH as (pre & y & post & -> & ->).
      exists (x :: pre), y, post. split; [done |]. rewrite Ht. reassoc.
    + rewrite IH, Ht. reassoc.
Qed.

(** The single-network config has one entry of the mapping, or none when
    the mapping is empty. *)
Lemma simpleNetworkConfig_entry (nets : gmap string EndpointSettings.t) :
  let simple :=
    NetworkingConfig.EndpointsConfig
      (simpleNetworkConfig (NetworkingConfig.mk nets)) in
  (nets = ∅ /\ simple = ∅)
  \/ (exists k v, nets !! k = Some v /\ simple = {[k := v]}).
Proof.
  unfold simpleNetworkConfig. simpl.
  pose proof (mapRange_perm 0 nets) as Hperm.
  destruct (mapRange 0 nets) as [| [k v] rest].
  - left. split; [| done].
    apply map_to_list_empty_iff. symmetry. by apply Permutation_nil_l.
  - right. exists k, v. split; [| by rewrite insert_empty].
    apply elem_of_map_to_list. rewrite <- Hperm. by left.
Qed.

Lemma mapRange_singleton site k (v : EndpointSettings.t) :
  mapRange site {[k := v]} = [(k, v)].
Proof.
  apply Permutation_singleton_r.
  by rewrite mapRange_perm, map_to_list_singleton.
Qed.


Lemma foldl_insert_reverse (l : list (string * EndpointSettings.t)) :
  foldl (fun m kv => <[kv.1 := kv.2]> m) (∅ : gmap string EndpointSettings.t) l
  = list_to_map (reverse l).
Proof.
  induction l as [| x l IH] using rev_ind; [done |].
  by rewrite foldl_snoc, IH, reverse_snoc.
Qed.

(** Inserting the entries of a map one by one, in any order, rebuilds the
    map. *)
Lemma foldl_insert_perm (nets : gmap string EndpointSettings.t) l :
  l ≡ₚ map_to_list nets ->
  foldl (fun m kv => <[kv.1 := kv.2]> m) ∅ l = nets.
Proof.
  intros Hperm. rewrite foldl_insert_reverse.
  rewrite <- (list_to_map_to_list nets). apply list_to_map_proper.
  - rewrite reverse_Permutation, Hperm. apply NoDup_fst_map_to_list.
  - by rewrite reverse_Permutation.
Qed.

Lemma membership_connects id acc (l : list (string * EndpointSettings.t)) :
  foldl (attachStep id) acc
    (map (fun kv => EvNetworkConnect kv.1 id kv.2 None) l)
  = foldl (fun m kv => <[kv.1 := kv.2]> m) acc l.
Proof.
  revert acc. induction l as [| kv l IH]; intros acc; simpl; [done |].
  by rewrite String.eqb_refl, IH.
Qed.

(** The trace of [StartContainer]. *)
Lemma StartContainer_trace c (w : World D) :
  let out := StartContainer client c w in
  let nets :=
    NetworkSettings.Networks (ContainerJSON.NetworkSettings (containerInfo c)) in
  let simple := simpleNetworkConfig (NetworkingConfig.mk nets) in
  exists r,
    let create :=
      EvContainerCreate (runtimeConfig c) (hostConfig c) simple (Name c) r in
    match r with
    | Err e => out.1 = ("", Some e) /\ trace out.2 = trace w ++ [create]
    | Ok id =>
        if IsHost (HostConfig.NetworkMode (hostConfig c))
        then exists s,
               trace out.2 = trace w ++ [create; EvContainerStart id s]
               /\ out.1 = match s with
                          | Some e => ("", Some e)
                          | None => (id, None)
                          end
        else exists rest,
               trace out.2 = trace w ++ create :: rest
               /\ (out.1.2 = None ->
                   out.1.1 = id
                   /\ rest =
                        map (fun kv => EvNetworkDisconnect kv.1 id true None)
                          (mapRange 1 (NetworkingConfig.EndpointsConfig simple))
                        ++ map (fun kv => EvNetworkConnect kv.1 id kv.2 None)
                             (mapRange 2 nets)
                        ++ [EvContainerStart id None])
    end.
Proof.
  unfold StartContainer, bind, ret, log.Infof, log.Debugf, write. simpl.
  step_call r w1. exists r. destruct r as [id | e]; [| by split].
  destruct (IsHost _); simpl.
  - step_call s w2. exists s.
    destruct s; simpl; rewrite Ht0, Ht; (split; [reassoc | done]).
  - match goal with
    | |- context [forEach ?l ?f w1] =>
        destruct (forEach_call l
                    (fun kv => EvNetworkDisconnect kv.1 id true)
                    (fun kv => NetworkDisconnect (api client) kv.1 id true) w1)
          as [_ Hdis];
        destruct (forEach l f w1) as [[e |] w2]; simpl in Hdis
    end.
    { destruct Hdis as (pre & x & post & _ & Hdis). eexists. simpl.
      split; [| done]. rewrite Hdis, Ht. reassoc. }
    match goal with
    | |- context [forEach ?l ?f w2] =>
        destruct (forEach_call l
                    (fun kv => EvNetworkConnect kv.1 id kv.2)
                    (fun kv => NetworkConnect (api client) kv.1 id kv.2) w2)
          as [_ Hcon];
        destruct (forEach l f w2) as [[e |] w3]; simpl in Hcon
    end.
    { destruct Hcon as (pre & x & post & _ & Hcon). eexists. simpl.
      split; [| done]. rewrite Hcon, Hdis, Ht. reassoc. }
    step_call s w4. eexists. simpl.
    split; [destruct s; simpl; rewrite Ht0, Hcon, Hdis, Ht; reassoc |].
    by destruct s.
Qed.

(** C3, as amended.  [StartContainer] creates the new container with one
    entry of the network mapping when the mapping has any, and with no
    network at all when the mapping is empty.  When the mapping is not
    empty, the network mode is not host mode and every call is accepted, it
    then force-disconnects the new container from that one network and
    connects it to every network of the mapping with that network's
    endpoint settings, each once, whatever the orders the ranges took; by
    the daemon's bookkeeping the new container is then attached to exactly
    the original mapping. *)
Theorem StartContainer_networks c (w : World D) :
  let out := StartContainer client c w in
  let nets :=
    NetworkSettings.Networks (ContainerJSON.NetworkSettings (containerInfo c)) in
  (exists simple r rest,
      emitted w out.2 =
        EvContainerCreate (runtimeConfig c) (hostConfig c)
          (NetworkingConfig.mk simple) (Name c) r :: rest
      /\ simple ⊆ nets
      /\ size simple = Nat.min 1 (size nets))
  /\ (forall id,
        out.1 = (id, None) ->
        IsHost (HostConfig.NetworkMode (hostConfig c)) = false ->
        nets <> ∅ ->
        exists k v,
          nets !! k = Some v
          /\ emitted w out.2 =
               EvContainerCreate (runtimeConfig c) (hostConfig c)
                 (NetworkingConfig.mk {[k := v]}) (Name c) (Ok id)
               :: EvNetworkDisconnect k id true None
               :: map (fun kv => EvNetworkConnect kv.1 id kv.2 None)
                    (mapRange 2 nets)
               ++ [EvContainerStart id None]
          /\ mapRange 2 nets ≡ₚ map_to_list nets
          /\ membership id (emitted w out.2) = nets).
Proof.
  intros out nets. subst out.
  destruct (StartContainer_trace c w) as [r Htr]. cbv zeta in Htr.
  fold nets in Htr.
  pose proof (simpleNetworkConfig_entry nets) as Hsimple.
  cbv zeta in Hsimple. split.
  - exists (NetworkingConfig.EndpointsConfig
              (simpleNetworkConfig (NetworkingConfig.mk nets))), r.
    assert (exists rest,
              trace (StartContainer client c w).2 =
                trace w ++
                EvContainerCreate (runtimeConfig c) (hostConfig c)
                  (simpleNetworkConfig (NetworkingConfig.mk nets)) (Name c) r
                :: rest) as [rest Hrest].
    { destruct r as [id | e].
      - destruct (IsHost _).
        + destruct Htr as (s & Htr & _). by eexists.
        + destruct Htr as (rest & Htr & _). by eexists.
      - destruct Htr as [_ Htr]. by eexists. }
    exists rest. split; [by apply emitted_app |].
    destruct Hsimple as [[Hnets ->] | (k & v & Hk & ->)].
    + split; [apply map_empty_subseteq |]. by rewrite Hnets, !map_size_empty.
    + split; [by apply map_singleton_subseteq_l |].
      rewrite map_size_singleton.
      assert (size nets <> 0%nat) as Hsize.
      { apply map_size_non_empty_iff. intros Hnets. by rewrite Hnets in Hk. }
      lia.
  - intros id Hout Hhost Hnets. rewrite Hhost in Htr.
    destruct r as [id' | e]; [| destruct Htr as [Htr _]; congruence].
    destruct Htr as (rest & Htr & Hok).
    destruct Hok as [Hid ->]; [by rewrite Hout |].
    rewrite Hout in Hid. simpl in Hid. subst id'.
    destruct Hsimple as [[Hbad _] | (k & v & Hk & Hone)]; [done |].
    exists k, v. split; [done |].
    assert (simpleNetworkConfig (NetworkingConfig.mk nets)
            = NetworkingConfig.mk {[k := v]}) as Hcfg.
    { rewrite <- Hone. reflexivity. }
    rewrite Hcfg in Htr. simpl in Htr. rewrite mapRange_singleton in Htr.
    simpl in Htr. rewrite (emitted_app _ _ _ Htr).
    split; [done |]. split; [apply mapRange_perm |].
    unfold membership. simpl.
    rewrite String.eqb_refl. simpl. rewrite delete_singleton_eq.
    rewrite foldl_app, membership_connects. simpl.
    by apply foldl_insert_perm, mapRange_perm.
Qed.

(** C7.  For a container in host network mode [StartContainer] calls the
    daemon to create the container and, if that was accepted, to start it,
    and for nothing else: no network is disconnected or connected. *)
Theorem StartContainer_host_mode c (w : World D) :
  IsHost (HostConfig.NetworkMode (hostConfig c)) = true ->
  let out := StartContainer client c w in
  List.filter isNetworkCall (emitted w out.2) = []
  /\ forallb isCreateOrStart (emitted w out.2) = true
  /\ exists simple r,
       emitted w out.2 =
         EvContainerCreate (runtimeConfig c) (hostConfig c) simple (Name c) r
         :: match r with
            | Ok id => [EvContainerStart id (out.1.2)]
            | Err _ => []
            end.
Proof.
  intros Hhost out. subst out.
  destruct (StartContainer_trace c w) as [r Htr]. simpl in Htr.
  rewrite Hhost in Htr.
  destruct r as [id | e].
  - destruct Htr as (s & Htr & Hout). rewrite (emitted_app _ _ _ Htr).
    repeat split. eexists _, (Ok id). rewrite Hout. by destruct s.
  - destruct Htr as [Hout Htr]. rewrite (emitted_app _ _ _ Htr).
    repeat split. by eexists _, (Err e).
Qed.

End StartFacts.

Section StartRuns.

#[local] Existing Instance Mock.methods.

(** C3, the claim as stated fails: a container attached to no network is
    created with no entry at all, not with exactly one. *)
Lemma StartContainer_no_network_counterexample :
  ~ (exists config hostConfig simple name r rest,
       emitted Mock.start
         (StartContainer (runtime := Mock.runtime)
            (Mock.client Mock.obliging true) Mock.netless Mock.start).2
       = EvContainerCreate config hostConfig simple name r :: rest
       /\ size (NetworkingConfig.EndpointsConfig simple) = 1%nat).
Proof.
  intros (config & hostConfig & simple & name & r & rest & Hev & Hsize).
  vm_compute in Hev. injection Hev as _ _ <- _ _ _.
  vm_compute in Hsize. discriminate Hsize.
Qed.

(** The calls of that run: the create without any network, and the start. *)
Example StartContainer_no_network_run :
  emitted Mock.start
    (StartContainer (runtime := Mock.runtime)
       (Mock.client Mock.obliging true) Mock.netless Mock.start).2
  = [EvContainerCreate (Config.mk "web:latest" [] [] ∅)
       (HostConfig.mk false "container:db" []) (NetworkingConfig.mk ∅) "web"
       (Ok "c2");
     EvContainerStart "c2" None].
Proof. reflexivity. Qed.

Lemma StartContainer_networks_witness :
  membership "c2"
    (emitted Mock.start
       (StartContainer (runtime := Mock.runtime)
          (Mock.client Mock.obliging true) Mock.web Mock.start).2)
  = Mock.twoNets
  /\ membership "c2"
       (emitted Mock.start
          (StartContainer (runtime := Mock.backwards)
             (Mock.client Mock.obliging true) Mock.web Mock.start).2)
     = Mock.twoNets.
Proof.
  assert (Mock.twoNets <> ∅) as Hnets by apply insert_non_empty.
  destruct (StartContainer_networks (runtime := Mock.runtime)
              (Mock.client Mock.obliging true) Mock.web Mock.start)
    as [_ Hfore].
  destruct (StartContainer_networks (runtime := Mock.backwards)
              (Mock.client Mock.obliging true) Mock.web Mock.start)
    as [_ Hback].
  destruct (Hfore "c2" eq_refl eq_refl Hnets) as (k & v & _ & _ & _ & Hm).
  destruct (Hback "c2" eq_refl eq_refl Hnets) as (k' & v' & _ & _ & _ & Hm').
  split; [exact Hm | exact Hm'].
Defined.

(** The two runs pick different entries at creation. *)
Example StartContainer_selection :
  (exists rest,
     emitted Mock.start
       (StartContainer (runtime := Mock.runtime)
          (Mock.client Mock.obliging true) Mock.web Mock.start).2
     = EvContainerCreate (Config.mk "web:latest" [] [] ∅)
         (HostConfig.mk false "bridge" [])
         (NetworkingConfig.mk {["A" := Mock.endpoint "10.0.0.2"]}) "web"
         (Ok "c2") :: EvNetworkDisconnect "A" "c2" true None :: rest)
  /\ (exists rest,
        emitted Mock.start
          (StartContainer (runtime := Mock.backwards)
             (Mock.client Mock.obliging true) Mock.web Mock.start).2
        = EvContainerCreate (Config.mk "web:latest" [] [] ∅)
            (HostConfig.mk false "bridge" [])
            (NetworkingConfig.mk {["B" := Mock.endpoint "10.0.1.2"]}) "web"
            (Ok "c2") :: EvNetworkDisconnect "B" "c2" true None :: rest).
Proof. split; eexists; vm_compute; reflexivity. Qed.

Lemma StartContainer_host_mode_witness :
  emitted Mock.start
    (StartContainer (runtime := Mock.runtime)
       (Mock.client Mock.obliging true) Mock.onHost Mock.start).2
  = [EvContainerCreate (Config.mk "web:latest" [] [] ∅)
       (HostConfig.mk false "host" [])
       (NetworkingConfig.mk {["A" := Mock.endpoint "10.0.0.2"]}) "web"
       (Ok "c2");
     EvContainerStart "c2" None]
  /\ List.filter isNetworkCall
       (emitted Mock.start
          (StartContainer (runtime := Mock.runtime)
             (Mock.client Mock.obliging true) Mock.onHost Mock.start).2)
     = [].
Proof.
  assert (IsHost (HostConfig.NetworkMode (hostConfig Mock.onHost)) = true)
    as Hhost by reflexivity.
  destruct (StartContainer_host_mode (runtime := Mock.runtime)
              (Mock.client Mock.obliging true) Mock.onHost Mock.start Hhost)
    as (Hnone & _ & simple & r & Hev).
  split; [| exact Hnone].
  vm_compute. reflexivity.
Defined.

End StartRuns.

Section StaleTrace.

Context {D : Type} {methods : ContainerMethods}.
Variable client : dockerClient D.

(** Every run of [IsContainerStale]: what it asked the daemon and what it
    returned. *)
Lemma IsContainerStale_trace c (w : World D) :
  let out := IsContainerStale client c w in
  let name := ImageName c in
  let compared (r : result ImageInspect.t) : bool * option error :=
    match r with
    | Err e => (false, Some e)
    | Ok newImageInfo =>
        (negb (String.eqb (ImageInspect.ID newImageInfo)
                          (ImageInspect.ID (imageInfo c))), None)
    end in
  if pullImages client then
    match EncodedAuth (api client) name with
    | Err e => out.1 = (false, Some e) /\ emitted w out.2 = []
    | Ok auth =>
        let opts :=
          if String.eqb auth "" then ImagePullOptions.zero
          else ImagePullOptions.mk auth (Some DefaultAuthHandler) in
        exists pulled,
          match pulled with
          | Err e =>
              out.1 = (false, Some e)
              /\ emitted w out.2 = [EvImagePull name opts (Err e)]
          | Ok response =>
              exists drained r,
                out.1 = compared r
                /\ emitted w out.2 =
                     [EvImagePull name opts (Ok response);
                      EvReadAll response drained;
                      EvImageInspectWithRaw name r;
                      EvClose response]
          end
    end
  else
    exists r,
      out.1 = compared r /\ emitted w out.2 = [EvImageInspectWithRaw name r].
Proof.
  unfold IsContainerStale, bind, ret, log.Infof, log.Debugf, write.
  destruct (pullImages client); simpl.
  - destruct (EncodedAuth (api client) (ImageName c)) as [auth | e]; simpl.
    2: { split; [done |]. apply emitted_app. simpl. by rewrite app_nil_r. }
    destruct (String.eqb auth ""); simpl.
    all: step_call pulled w1; exists pulled; destruct pulled as [response | e];
      simpl; [| split; [done | by apply emitted_app]].
    all: step_call drained w2; step_call r w3; exists drained, r.
    all: destruct r as [newImageInfo | e]; simpl.
    all: try destruct (negb _); simpl.
    all: step_call u w4; split; [done |]; apply emitted_app; simpl.
    all: rewrite Ht2, ?Ht1, Ht0, Ht; reassoc.
  - step_call r w1. exists r.
    destruct r as [newImageInfo | e]; simpl; [destruct (negb _) |]; simpl.
    all: split; [done |]; apply emitted_app; simpl; by rewrite ?app_nil_r.
Qed.

(** A run either got the image inspected, exactly once, and returns what
    the inspection and the comparison give, or it gave up before any
    inspection. *)
Lemma IsContainerStale_inspection c (w : World D) :
  let out := IsContainerStale client c w in
  (exists r,
     out.1 = match r with
             | Err e => (false, Some e)
             | Ok newImageInfo =>
                 (negb (String.eqb (ImageInspect.ID newImageInfo)
                                   (ImageInspect.ID (imageInfo c))), None)
             end
     /\ forall x,
          In (EvImageInspectWithRaw (ImageName c) x) (emitted w out.2)
          <-> x = r)
  \/ (exists e,
        out.1 = (false, Some e)
        /\ forall x,
             ~ In (EvImageInspectWithRaw (ImageName c) x) (emitted w out.2)).
Proof.
  intros out. subst out.
  pose proof (IsContainerStale_trace c w) as Htr. cbv zeta in Htr.
  destruct (pullImages client).
  - destruct (EncodedAuth _ _) as [auth | e].
    + destruct Htr as [[response | e] Htr].
      * destruct Htr as (drained & r & Hout & ->). left. exists r.
        split; [done |]. intros x. simpl.
        split; [| intros ->; auto].
        intros [Hin | [Hin | [Hin | [Hin | []]]]]; congruence.
      * destruct Htr as [Hout ->]. right. exists e. split; [done |].
        intros x [Hin | []]. discriminate.
    + destruct Htr as [Hout ->]. right. exists e. split; [done |].
      by intros x [].
  - destruct Htr as (r & Hout & ->). left. exists r. split; [done |].
    intros x. simpl. split.
    + intros [Hin | []]. congruence.
    + intros ->. auto.
Qed.


End StaleTrace.

Section StaleFacts.

Context {D : Type} {methods : ContainerMethods}.
Variable client : dockerClient D.


(** C9.  With pulling enabled, a failure to resolve the registry
    credentials of the image reference is what [IsContainerStale] returns,
    with staleness false, and it returns it without having asked the daemon
    for anything: no pull, no inspection. *)
Theorem IsContainerStale_auth_failure c (w : World D) e :
  pullImages client = true ->
  EncodedAuth (api client) (ImageName c) = Err e ->
  let out := IsContainerStale client c w in
  out.1 = (false, Some e) /\ emitted w out.2 = [].
Proof.
  intros Hpull Hauth out. subst out.
  pose proof (IsContainerStale_trace client c w) as Htr. cbv zeta in Htr.
  by rewrite Hpull, Hauth in Htr.
Qed.


End StaleFacts.

Section StaleRuns.

#[local] Existing Instance Mock.methods.


Lemma IsContainerStale_auth_failure_witness :
  (IsContainerStale
     (Mock.client (Mock.withAuth (Err (ErrDaemon "credentials store locked"))
                     Mock.obliging) true)
     Mock.web Mock.start).1
  = (false, Some (ErrDaemon "credentials store locked")).
Proof.
  apply (IsContainerStale_auth_failure
           (Mock.client (Mock.withAuth (Err (ErrDaemon "credentials store locked"))
                           Mock.obliging) true)
           Mock.web Mock.start); reflexivity.
Defined.


End StaleRuns.

Section ExecFacts.

Context {D : Type}.
Variable client : dockerClient D.

(** Replace the trace and the log of each world by what the calls before it
    made them. *)
Ltac unroll :=
  repeat match goal with
         | H : trace _ = _ |- _ => rewrite H; clear H
         | H : logged _ = _ |- _ => rewrite H; clear H
         end.

(** The outcomes of [ExecuteCommand].  It returns an error only for a
    failure to create, to start or to inspect the exec session.  Once the
    session was inspected it returns nil whatever the exit code.  An exit
    code above zero is logged at error level, followed by the captured
    output at error level; for any other exit code the code is not logged,
    and the captured output, if there is any, is logged at info level. *)
Theorem ExecuteCommand_exit_code containerID command (w : World D) :
  let out := ExecuteCommand client containerID command w in
  let calls := emitted w out.2 in
  (forall e,
     out.1 = Some e ->
     (exists config, In (EvContainerExecCreate containerID config (Err e)) calls)
     \/ (exists execID check,
           In (EvContainerExecStart execID check (Some e)) calls)
     \/ (exists execID, In (EvContainerExecInspect execID (Err e)) calls))
  /\ (forall execID exitCode,
        In (EvContainerExecInspect execID (Ok exitCode)) calls ->
        let execOutput := capturedOutput (TrimSpace (api client)) calls in
        out.1 = None
        /\ written w out.2 =
             outputFailures calls ++
             if 0 <? exitCode then
               [Log ErrorLevel (Some "Command exited with code %v.")
                  [VInt exitCode];
                Log ErrorLevel None [VStr execOutput]]
             else if (0 <? String.length execOutput)%nat then
               [Log InfoLevel (Some ("Command output:" +:+ newline +:+ "%v"))
                  [VStr execOutput]]
             else []).
Proof.
  unfold ExecuteCommand, bind, ret, log.Infof, log.Errorf, log.Error, write.
  simpl.
  step_call created w1. destruct created as [execID | e]; simpl.
  2: { rewrite (emitted_app w w1 _ Ht). split.
       - intros e0 [= <-]. left. eexists. by left.
       - intros x code [Hin | []]. discriminate. }
  step_call attached w2.
  destruct attached as [response | attachErr]; simpl.
  all: step_call started w3; destruct started as [startErr |]; simpl.
  all: try (step_call rd w4; destruct rd as [[n contents] [readErr |]]; simpl;
            [| destruct (0 <? n) eqn:Hn; simpl]).
  all: try (step_call inspected w5;
            destruct inspected as [exitCode | inspectErr]; simpl;
            [destruct (0 <? exitCode) eqn:Hcode; simpl;
             [| try match goal with
                    | |- context [(0 <? String.length (TrimSpace ?a ?o))%nat] =>
                        destruct (0 <? String.length (TrimSpace a o))%nat
                          eqn:Hlen; simpl
                    end] |]).
  all: try step_call closed w6.
  all: match goal with
       | |- context [emitted ?w0 ?wn] =>
           let H := fresh "Hevs" in
           eassert (trace wn = trace w0 ++ _) as H
             by (simpl; unroll; rewrite <- ?app_assoc; reflexivity);
           rewrite (emitted_app _ _ _ H); clear H
       end.
  all: try match goal with
       | |- context [written ?w0 ?wn] =>
           let H := fresh "Hlog" in
           eassert (logged wn = logged w0 ++ _) as H
             by (simpl; unroll; rewrite <- ?app_assoc;
                 first [reflexivity | symmetry; apply app_nil_r]);
           rewrite (written_app _ _ _ H); clear H
       end.
  all: split;
    [ intros e0 He0; simpl; try discriminate He0; injection He0 as <-; eauto 12
    | intros x code Hin; simpl in Hin;
      repeat match goal with
             | H : _ \/ _ |- _ => destruct H
             | H : False |- _ => destruct H
             end;
      try discriminate;
      match goal with H : EvContainerExecInspect _ _ = _ |- _ =>
        injection H as <- <- end;
      (split; [done | simpl; rewrite ?Hn, ?Hcode, ?Hlen; reflexivity]) ].
Qed.

End ExecFacts.

Section ExecRuns.

(** C5.  The run of [ExecuteCommand] on a session that ends with the exit
    code -1 after printing "boom".  The exit code is not zero and nil is
    returned, as the claim has it; but nothing is reported at error level:
    the test [ExitCode > 0] takes the branch of a successful command, and
    the one line logged is the output, at info level. *)
Example ExecuteCommand_negative_exit :
  ExecuteCommand (Mock.client (Mock.exiting (-1)) true) "c1" "hook.sh"
    Mock.start
  = (None,
     mkWorld (Mock.mkState true true "sha256:aaa") 0
       [EvContainerExecCreate "c1"
          (ExecConfig.mk true true true false ["sh"; "-c"; "hook.sh"])
          (Ok "exec1");
        EvContainerExecAttach "exec1"
          (ExecConfig.mk true true true false []) (Ok 2%nat);
        EvContainerExecStart "exec1" (ExecStartCheck.mk false true) None;
        EvReadFrom 2%nat (4, "boom", None);
        EvContainerExecInspect "exec1" (Ok (-1));
        EvClose 2%nat]
       [Log InfoLevel (Some ("Command output:" +:+ newline +:+ "%v"))
          [VStr "boom"]]).
Proof. reflexivity. Qed.

(** No line of that run is at error level. *)
Lemma ExecuteCommand_negative_exit_unreported :
  ~ (exists line,
       In line
          (written Mock.start
             (ExecuteCommand (Mock.client (Mock.exiting (-1)) true) "c1"
                "hook.sh" Mock.start).2)
       /\ level line = ErrorLevel).
Proof.
  intros (line & Hin & Hlevel).
  vm_compute in Hin. destruct Hin as [<- | []]. discriminate Hlevel.
Qed.

(** The same command ending with the exit code 3: nil again, and the two
    lines at error level. *)
Lemma ExecuteCommand_exit_code_witness :
  (ExecuteCommand (Mock.client (Mock.exiting 3) true) "c1" "hook.sh"
     Mock.start).1 = None
  /\ written Mock.start
       (ExecuteCommand (Mock.client (Mock.exiting 3) true) "c1" "hook.sh"
          Mock.start).2
     = [Log ErrorLevel (Some "Command exited with code %v.") [VInt 3];
        Log ErrorLevel None [VStr "boom"]].
Proof.
  destruct (ExecuteCommand_exit_code (Mock.client (Mock.exiting 3) true)
              "c1" "hook.sh" Mock.start) as [_ Hexit].
  assert (In (EvContainerExecInspect "exec1" (Ok 3))
            (emitted Mock.start
               (ExecuteCommand (Mock.client (Mock.exiting 3) true) "c1"
                  "hook.sh" Mock.start).2)) as Hinspected
    by (vm_compute; auto 10).
  destruct (Hexit "exec1" 3 Hinspected) as [Hnil Hlog].
  split; [exact Hnil |]. rewrite Hlog. reflexivity.
Defined.

(** The output is trimmed before it is logged: a command that prints
    "boom" between blanks and line ends, a no-break space among them, and
    exits with the code 3 has the bare "boom" on its error line. *)
Example ExecuteCommand_trims_output :
  let nbsp := String (Ascii.ascii_of_nat 194) (String (Ascii.ascii_of_nat 160) "") in
  let printed := newline +:+ "  boom " +:+ nbsp +:+ newline in
  written Mock.start
    (ExecuteCommand (Mock.client (Mock.withExit 3 printed Mock.obliging) true)
       "c1" "hook.sh" Mock.start).2
  = [Log ErrorLevel (Some "Command exited with code %v.") [VInt 3];
     Log ErrorLevel None [VStr "boom"]].
Proof. reflexivity. Qed.

(** White space alone is no output: nothing is logged for a command that
    prints a blank line and succeeds. *)
Example ExecuteCommand_blank_output :
  written Mock.start
    (ExecuteCommand
       (Mock.client (Mock.withExit 0 (" " +:+ newline) Mock.obliging) true)
       "c1" "hook.sh" Mock.start).2
  = [].
Proof. reflexivity. Qed.

End ExecRuns.

Section SnapshotFacts.

Context {D : Type}.
Variable client : dockerClient D.
Variable ContainerList : D -> Resp D (result (list ContainerSummary.t)).

(** What a run of [GetContainer] asked and what it made of the answers. *)
Lemma GetContainer_trace id (w : World D) :
  let out := GetContainer client id w in
  logged out.2 = logged w
  /\ match out.1 with
     | Ok c => trace out.2 = trace w ++ snapshotCalls id c
     | Err e =>
         trace out.2 = trace w ++ [EvContainerInspect id (Err e)]
         \/ exists ci,
              trace out.2 =
                trace w ++
                [EvContainerInspect id (Ok ci);
                 EvImageInspectWithRaw (ContainerJSON.Image ci) (Err e)]
     end.
Proof.
  unfold GetContainer, bind, ret.
  step_call r w1. destruct r as [ci | e]; simpl.
  2: { split; [done |]. by left. }
  step_call r w2. destruct r as [img | e]; simpl.
  - split; [congruence |]. rewrite Ht0, Ht. unfold snapshotCalls. reassoc.
  - split; [congruence |]. right. exists ci. rewrite Ht0, Ht. reassoc.
Qed.

(** [GetContainer] returns a snapshot only when both inspections succeeded,
    and the snapshot is their two answers: the container's inspection and
    the inspection of the image named by its [Image] field, asked for right
    after it.  A failed container inspection ends the run before any image
    is inspected. *)
Theorem GetContainer_snapshot id (w : World D) :
  let out := GetContainer client id w in
  match out.1 with
  | Ok c => emitted w out.2 = snapshotCalls id c
  | Err e =>
      emitted w out.2 = [EvContainerInspect id (Err e)]
      \/ exists ci,
           emitted w out.2 =
             [EvContainerInspect id (Ok ci);
              EvImageInspectWithRaw (ContainerJSON.Image ci) (Err e)]
  end.
Proof.
  intros out. subst out.
  destruct (GetContainer_trace id w) as [_ Htr].
  destruct (GetContainer client id w).1 as [c | e].
  - by apply emitted_app.
  - destruct Htr as [Htr | [ci Htr]]; [left | right; exists ci];
      by apply emitted_app.
Qed.

Lemma listLoop_trace fn running cs (w : World D) :
  let out := listLoop client fn running cs w in
  logged out.2 = logged w
  /\ match out.1 with
     | Ok res =>
         exists all,
           length all = length running
           /\ res = cs ++ List.filter fn all
           /\ trace out.2 =
                trace w ++
                concat (zip_with snapshotCalls
                          (map ContainerSummary.ID running) all)
     | Err e =>
         exists pre last,
           trace out.2 = trace w ++ pre ++ [last]
           /\ rejection last = Some e
           /\ Forall (fun ev => rejection ev = None) pre
     end.
Proof.
  revert cs w. induction running as [| rc rest IH]; intros cs w; simpl.
  { split; [done |]. exists []. by rewrite !app_nil_r. }
  unfold bind, ret.
  destruct (GetContainer_trace (ContainerSummary.ID rc) w) as [Hl Htr].
  destruct (GetContainer client (ContainerSummary.ID rc) w) as [[c | e] w1];
    simpl in *.
  - specialize (IH (if fn c then cs ++ [c] else cs) w1). simpl in IH.
    destruct IH as [Hl' IH]. split; [congruence |].
    destruct (listLoop client fn rest _ w1).1 as [res | e].
    + destruct IH as (all & Hlen & -> & ->). exists (c :: all).
      split; [simpl; congruence |]. split.
      * simpl. destruct (fn c); reassoc.
      * rewrite Htr. reassoc.
    + destruct IH as (pre & last & -> & Hlast & Hpre).
      exists (snapshotCalls (ContainerSummary.ID rc) c ++ pre), last.
      split; [rewrite Htr; reassoc |]. split; [done |].
      apply Forall_app. split; [| done]. by repeat constructor.
  - split; [done |]. destruct Htr as [-> | [ci ->]].
    + by exists [], (EvContainerInspect (ContainerSummary.ID rc) (Err e)).
    + exists [EvContainerInspect (ContainerSummary.ID rc) (Ok ci)],
        (EvImageInspectWithRaw (ContainerJSON.Image ci) (Err e)).
      split; [done |]. split; [done |]. by repeat constructor.
Qed.

(** When the daemon fails to list its containers, [ListContainers] returns
    that error and inspects nothing. *)
Theorem ListContainers_list_failure fn (w : World D) e :
  reply (ContainerList (daemon w)) = Err e ->
  let out := ListContainers client ContainerList fn w in
  out.1 = Err e /\ emitted w out.2 = [].
Proof.
  intros Hlist. unfold ListContainers, bind, ret, write, request, reply in *.
  simpl. destruct (ContainerList (daemon w)) as [[r d] dt]. simpl in *.
  subst r. simpl. split; [done |]. apply emitted_app. simpl.
  by rewrite app_nil_r.
Qed.

(** A successful [ListContainers] took one snapshot of every container the
    daemon listed, in the order listed, by the two calls of [GetContainer]
    each, and returns the snapshots the filter accepts, in that order. *)
Theorem ListContainers_filtered fn (w : World D) cs :
  let out := ListContainers client ContainerList fn w in
  out.1 = Ok cs ->
  exists running all,
    reply (ContainerList (daemon w)) = Ok running
    /\ length all = length running
    /\ cs = List.filter fn all
    /\ emitted w out.2 =
         concat (zip_with snapshotCalls
                   (map ContainerSummary.ID running) all).
Proof.
  unfold ListContainers, bind, ret, write, request, reply. simpl.
  destruct (ContainerList (daemon w)) as [[r d] dt]. simpl.
  destruct r as [running | e]; [| done].
  match goal with
  | |- context [listLoop client fn running [] ?w0] =>
      destruct (listLoop_trace fn running [] w0) as [_ Htr];
      destruct (listLoop client fn running [] w0) as [r w1]
  end.
  simpl in *. intros ->. destruct Htr as (all & Hlen & Hres & Htr).
  exists running, all. repeat split; [done | done |]. by apply emitted_app.
Qed.

(** One failed inspection fails the whole listing: [ListContainers] returns
    the error of the first inspection the daemon rejected, which is the
    last call it made, whatever the filter would have made of that
    container. *)
Theorem ListContainers_snapshot_failure fn (w : World D) running e :
  reply (ContainerList (daemon w)) = Ok running ->
  let out := ListContainers client ContainerList fn w in
  out.1 = Err e ->
  exists pre last,
    emitted w out.2 = pre ++ [last]
    /\ rejection last = Some e
    /\ Forall (fun ev => rejection ev = None) pre.
Proof.
  unfold ListContainers, bind, ret, write, request, reply. simpl.
  destruct (ContainerList (daemon w)) as [[r d] dt]. simpl. intros ->.
  match goal with
  | |- context [listLoop client fn running [] ?w0] =>
      destruct (listLoop_trace fn running [] w0) as [_ Htr];
      destruct (listLoop client fn running [] w0) as [r w1]
  end.
  simpl in *. intros ->. destruct Htr as (pre & last & Htr & Hlast & Hpre).
  exists pre, last. split; [by apply emitted_app | done].
Qed.

End SnapshotFacts.

Section WaitBounds.

Context {D : Type} {methods : ContainerMethods}
  {scheduler : GoScheduler D}.
Variable client : dockerClient D.

(** Each poll but the first comes a full second after the one before it,
    and a poll is made only while the timer has not fired. *)
Lemma waitLoop_polls fuel c timeout (w : World D) r w' :
  waitLoop client fuel c timeout w = Some (r, w') ->
  now w <= now w'
  /\ exists evs,
       trace w' = trace w ++ evs
       /\ (evs = []
           \/ (Z.of_nat (length evs) - 1) * Second < timeout - now w).
Proof.
  revert w. induction fuel as [| fuel IH]; intros w; simpl; [done |].
  destruct (Z.leb_spec timeout (now w + Z.of_N (lag w))).
  { intros [= <- <-]. simpl. split; [lia |]. exists [].
    by rewrite app_nil_r; auto. }
  unfold call. simpl.
  destruct (ContainerInspect (api client) (ID c) (daemon w)) as [[a d] dt].
  destruct a as [ci | e].
  - destruct (negb _); simpl.
    + intros [= <- <-]. simpl. split; [lia |]. eexists. split; [done |].
      right. simpl. lia.
    + intros Hrun. apply IH in Hrun as (Hnow & evs & Ht & Hevs).
      simpl in Hnow, Ht, Hevs. split; [unfold Second in *; lia |].
      exists (EvContainerInspect (ID c) (Ok ci) :: evs).
      split; [rewrite Ht; reassoc |]. right.
      destruct Hevs as [-> | Hevs]; simpl length.
      * simpl. lia.
      * unfold Second in *. lia.
  - intros [= <- <-]. simpl. split; [lia |]. eexists. split; [done |].
    right. simpl. lia.
Qed.

(** A wait with a positive [waitTime] inspects the container at most once
    per second begun of it: the poll number [n] is made only if [n - 1]
    whole seconds fit strictly inside [waitTime].  The wait never runs the
    clock backwards. *)
Theorem waitForStop_polls_bounded c waitTime (w : World D) :
  0 < waitTime ->
  let out := waitForStop client c waitTime w in
  (Z.of_nat (length (emitted w out.2)) - 1) * Second < waitTime
  /\ now w <= now out.2.
Proof.
  intros Hpos. unfold waitForStop, time.After.
  destruct (waitLoop_turns client c waitTime w) as [[r w'] Hrun].
  rewrite Hrun. simpl.
  apply waitLoop_polls in Hrun as (Hnow & evs & Ht & Hevs).
  rewrite (emitted_app _ _ _ Ht). split; [| done].
  destruct Hevs as [-> | Hevs]; simpl; unfold Second in *; lia.
Qed.

(** All a wait does is inspect the container it was given: every call it
    issues is a [ContainerInspect] of that container's id, and it writes no
    log line. *)
Theorem waitForStop_only_inspects c waitTime (w : World D) :
  let out := waitForStop client c waitTime w in
  Forall (fun ev => exists answer, ev = EvContainerInspect (ID c) answer)
         (emitted w out.2)
  /\ written w out.2 = [].
Proof.
  intros out. subst out.
  destruct (waitForStop_polled client c waitTime w) as (evs & Ht & Hl & Hp).
  rewrite (emitted_app _ _ _ Ht). split.
  - clear Ht. induction Hp; repeat constructor; eauto.
  - apply written_app. by rewrite app_nil_r.
Qed.

Lemma waitForStop_length c waitTime (w : World D) :
  0 <= waitTime ->
  (length (trace (waitForStop client c waitTime w).2)
   <= length (trace w) + Z.to_nat (waitTime / Second + 1))%nat.
Proof.
  intros Hpos. unfold waitForStop, time.After.
  destruct (waitLoop_turns client c waitTime w) as [[r w'] Hrun].
  rewrite Hrun. simpl.
  apply waitLoop_polls in Hrun as (_ & evs & -> & Hevs).
  rewrite length_app.
  assert (0 < Second) as HS by (unfold Second; lia).
  assert (0 <= waitTime / Second) by (apply Z.div_pos; lia).
  destruct Hevs as [-> | Hevs]; simpl; [lia |].
  assert (Z.of_nat (length evs) - 1 <= waitTime / Second).
  { apply Z.div_le_lower_bound; lia. }
  lia.
Qed.

(** [StopContainer] sends exactly one kill, as its first call, to the
    container it was given, with the container's own stop signal, or with
    SIGTERM when the container names none. *)
Theorem StopContainer_signal c timeout (w : World D) :
  let out := StopContainer client c timeout w in
  exists answer rest,
    emitted w out.2 =
      EvContainerKill (ID c)
        (if String.eqb (StopSignal c) "" then "SIGTERM" else StopSignal c)
        answer :: rest
    /\ List.filter isKill rest = [].
Proof.
  intros out. subst out.
  pose proof (StopContainer_trace client c timeout w) as Htr. simpl in Htr.
  assert (forall id r evs, polled id r evs -> List.filter isKill evs = [])
    as Hnokill by (induction 1; simpl; auto).
  destruct (signalled client c w).1 as [e |].
  - destruct Htr as [_ Htr]. rewrite (emitted_app _ _ _ Htr).
    by exists (Some e), [].
  - destruct Htr as (r1 & evs1 & evs2 & Hp1 & Htr & Hout).
    rewrite (emitted_app _ _ _ Htr). eexists None, _. split; [done |].
    rewrite !List.filter_app, (Hnokill _ _ _ Hp1). simpl.
    assert (List.filter isKill evs2 = []) as ->.
    { destruct (removalRequested client c timeout w).1.
      - by destruct Hout as [-> _].
      - destruct Hout as (r2 & Hp2 & _). by eapply Hnokill. }
    by destruct (HostConfig.AutoRemove _).
Qed.

(** [StopContainer] touches no other container: every call it issues is a
    kill, an inspection or a removal of the id of the container it was
    given. *)
Theorem StopContainer_only_this_container c timeout (w : World D) :
  let out := StopContainer client c timeout w in
  forallb (stopsContainer (ID c)) (emitted w out.2) = true.
Proof.
  intros out. subst out.
  pose proof (StopContainer_trace client c timeout w) as Htr. simpl in Htr.
  assert (forall r evs, polled (ID c) r evs ->
            forallb (stopsContainer (ID c)) evs = true) as Hpolls.
  { induction 1; simpl; rewrite ?String.eqb_refl; auto. }
  destruct (signalled client c w).1 as [e |].
  - destruct Htr as [_ Htr]. rewrite (emitted_app _ _ _ Htr). simpl.
    by rewrite String.eqb_refl.
  - destruct Htr as (r1 & evs1 & evs2 & Hp1 & Htr & Hout).
    rewrite (emitted_app _ _ _ Htr). simpl.
    rewrite String.eqb_refl, !forallb_app, (Hpolls _ _ Hp1). simpl.
    assert (forallb (stopsContainer (ID c)) evs2 = true) as ->.
    { destruct (removalRequested client c timeout w).1.
      - by destruct Hout as [-> _].
      - destruct Hout as (r2 & Hp2 & _). by eapply Hpolls. }
    destruct (HostConfig.AutoRemove _); simpl; by rewrite ?String.eqb_refl.
Qed.

(** [StopContainer] ends after a bounded number of daemon calls: the kill,
    the removal, and for each of the two waits at most one inspection per
    second begun of the timeout. *)
Theorem StopContainer_calls_bounded c timeout (w : World D) :
  0 <= timeout ->
  let out := StopContainer client c timeout w in
  Z.of_nat (length (emitted w out.2)) <= 2 * (timeout / Second + 1) + 2.
Proof.
  intros Hpos out. subst out.
  assert (0 <= timeout / Second)
    by (apply Z.div_pos; unfold Second; lia).
  pose proof (signalled_trace client c w) as Hk.
  apply (f_equal length) in Hk. rewrite length_app in Hk. simpl in Hk.
  assert (forall w', (length (trace w) <= length (trace w'))%nat ->
            length (emitted w w') = (length (trace w') - length (trace w))%nat)
    as Hemitted.
  { intros w' _. unfold emitted. by rewrite length_drop. }
  destruct (removalRequested_cases client c timeout w)
    as [(e & _ & Hreq) | [_ Hreq]].
  - rewrite (StopContainer_aborted client c timeout w e) by by rewrite Hreq.
    rewrite Hreq. simpl. rewrite Hemitted by lia. lia.
  - pose proof (waitForStop_length c timeout (signalled client c w).2 Hpos)
      as Hw1.
    pose proof (removal_trace client c
                  (waitForStop client c timeout (signalled client c w).2).2)
      as Hrm.
    apply (f_equal length) in Hrm. rewrite length_app in Hrm.
    assert (length (trace (removalRequested client c timeout w).2)
            <= length (trace w) + 1 + Z.to_nat (timeout / Second + 1) + 1)%nat
      as Hreqlen.
    { rewrite Hreq. destruct (HostConfig.AutoRemove _); simpl in Hrm; lia. }
    assert (length (trace w)
            <= length (trace (removalRequested client c timeout w).2))%nat
      as Hmono.
    { rewrite Hreq, Hrm.
      destruct (waitForStop_polled client c timeout (signalled client c w).2)
        as (evs & -> & _). rewrite length_app. lia. }
    destruct (removalRequested client c timeout w).1 as [e |] eqn:Hone.
    + rewrite (StopContainer_aborted client c timeout w e Hone). simpl.
      rewrite Hemitted by lia. lia.
    + rewrite (StopContainer_second_wait client c timeout w Hone). simpl.
      pose proof (waitForStop_length c timeout
                    (removalRequested client c timeout w).2 Hpos) as Hw2.
      destruct (waitForStop_polled client c timeout
                  (removalRequested client c timeout w).2)
        as (evs & Ht2 & _).
      rewrite Hemitted by (rewrite Ht2, length_app; lia). lia.
Qed.

End WaitBounds.

Section StartMore.

Context {D : Type} {methods : ContainerMethods} {runtime : GoRuntime}.
Variable client : dockerClient D.

Lemma accepted_map {A} (f : A -> Event) (l : list A) :
  (forall x, rejection (f x) = None) ->
  Forall (fun e => rejection e = None) (map f l).
Proof. intros Hf. induction l; constructor; auto. Qed.

(** [StartContainer] stops at the first call the daemon rejects: every call
    before its last was accepted, the error it returns is the one its last
    call was answered with (nil if that was accepted too), and with an
    error it returns the empty id. *)
Theorem StartContainer_fail_fast c (w : World D) :
  let out := StartContainer client c w in
  exists pre last,
    emitted w out.2 = pre ++ [last]
    /\ Forall (fun ev => rejection ev = None) pre
    /\ out.1.2 = rejection last
    /\ (forall e, out.1.2 = Some e -> out.1.1 = "").
Proof.
  unfold StartContainer, bind, ret, log.Infof, log.Debugf, write. simpl.
  step_call r w1.
  match type of Ht with _ = _ ++ [?ev] => set (create := ev) in * end.
  destruct r as [id | e]; simpl.
  2: { exists [], create. split; [by apply emitted_app |]. by repeat split. }
  assert (rejection create = None) as Hcreate by done.
  clearbody create.
  destruct (IsHost _); simpl.
  - step_call s w2. exists [create], (EvContainerStart id s).
    destruct s; simpl; (split; [apply emitted_app; rewrite Ht0, Ht; reassoc |]);
      repeat split; try done; by repeat constructor.
  - match goal with
    | |- context [forEach ?l ?f w1] =>
        destruct (forEach_call l
                    (fun kv => EvNetworkDisconnect kv.1 id true)
                    (fun kv => NetworkDisconnect (api client) kv.1 id true) w1)
          as [_ Hdis];
        destruct (forEach l f w1) as [[e |] w2]; simpl in Hdis
    end.
    { destruct Hdis as (pre & x & post & _ & Hdis). simpl.
      match type of Hdis with
      | _ = _ ++ ?m ++ [?g] => exists (create :: m), g
      end.
      split; [apply emitted_app; rewrite Hdis, Ht; reassoc |].
      repeat split; try done.
      constructor; [done |]. by apply accepted_map. }
    match goal with
    | |- context [forEach ?l ?f w2] =>
        destruct (forEach_call l
                    (fun kv => EvNetworkConnect kv.1 id kv.2)
                    (fun kv => NetworkConnect (api client) kv.1 id kv.2) w2)
          as [_ Hcon];
        destruct (forEach l f w2) as [[e |] w3]; simpl in Hcon
    end.
    { destruct Hcon as (pre & x & post & _ & Hcon). simpl.
      match type of Hdis with
      | _ = _ ++ ?m1 =>
          match type of Hcon with
          | _ = _ ++ ?m2 ++ [?g] => exists (create :: m1 ++ m2), g
          end
      end.
      split; [apply emitted_app; rewrite Hcon, Hdis, Ht; reassoc |].
      repeat split; try done.
      constructor; [done |]. apply Forall_app. split; by apply accepted_map. }
    step_call s w4.
    match type of Hdis with
    | _ = _ ++ ?m1 =>
        match type of Hcon with
        | _ = _ ++ ?m2 =>
            exists (create :: m1 ++ m2), (EvContainerStart id s)
        end
    end.
    destruct s; simpl;
      (split; [apply emitted_app; rewrite Ht0, Hcon, Hdis, Ht; reassoc |]);
      repeat split; try done;
      (constructor; [done |]; apply Forall_app; split; by apply accepted_map).
Qed.

(** A successful [StartContainer] returns the id the daemon gave the
    container at creation and ends by starting that very container; the
    create call, its first, carries the runtime config, the host config and
    the name of the old container, and all that lies between the two is
    network calls. *)
Theorem StartContainer_returns_created c (w : World D) :
  let out := StartContainer client c w in
  out.1.2 = None ->
  exists simple between,
    emitted w out.2 =
      EvContainerCreate (runtimeConfig c) (hostConfig c) simple (Name c)
        (Ok out.1.1)
      :: between ++ [EvContainerStart out.1.1 None]
    /\ forallb isNetworkCall between = true.
Proof.
  intros out Hok. subst out.
  destruct (StartContainer_trace client c w) as [r Htr]. cbv zeta in Htr.
  assert (forall (A : Type) (f : A -> Event) (l : list A),
            (forall x, isNetworkCall (f x) = true) ->
            forallb isNetworkCall (map f l) = true) as Hnet.
  { intros A f l Hf. induction l; simpl; [done |]. by rewrite Hf. }
  destruct r as [id | e].
  - destruct (IsHost _).
    + destruct Htr as (s & Htr & Hout). rewrite Hout in Hok |- *.
      destruct s; [discriminate |]. simpl.
      rewrite (emitted_app _ _ _ Htr). by eexists _, [].
    + destruct Htr as (rest & Htr & Hrest).
      destruct (Hrest Hok) as [-> ->].
      rewrite (emitted_app _ _ _ Htr).
      match goal with
      | |- context [?create :: ?m1 ++ ?m2 ++ [EvContainerStart ?i None]] =>
          exists (simpleNetworkConfig
                    (NetworkingConfig.mk
                       (NetworkSettings.Networks
                          (ContainerJSON.NetworkSettings (containerInfo c))))),
            (m1 ++ m2)
      end.
      split; [by rewrite <- app_assoc |].
      rewrite forallb_app. rewrite Hnet by done. by rewrite Hnet.
  - destruct Htr as [Hout _]. by rewrite Hout in Hok.
Qed.

End StartMore.

Section StaleMore.

Context {D : Type} {methods : ContainerMethods}.
Variable client : dockerClient D.

(** With pulling enabled and the credentials resolved, the first call of
    [IsContainerStale] is the pull of the image reference: anonymous, with
    the zero options, when the credentials are empty; otherwise with the
    credentials as registry auth and the default handler as privilege
    function. *)
Theorem IsContainerStale_pull_options c (w : World D) auth :
  pullImages client = true ->
  EncodedAuth (api client) (ImageName c) = Ok auth ->
  let out := IsContainerStale client c w in
  exists answer rest,
    emitted w out.2 =
      EvImagePull (ImageName c)
        (if String.eqb auth ""
         then {| ImagePullOptions.RegistryAuth := "";
                 ImagePullOptions.PrivilegeFunc := None |}
         else {| ImagePullOptions.RegistryAuth := auth;
                 ImagePullOptions.PrivilegeFunc := Some DefaultAuthHandler |})
        answer :: rest.
Proof.
  intros Hpull Hauth out. subst out.
  pose proof (IsContainerStale_trace client c w) as Htr. cbv zeta in Htr.
  rewrite Hpull, Hauth in Htr. destruct Htr as [[response | e] Htr].
  - destruct Htr as (drained & r & _ & ->). by eexists _, _.
  - destruct Htr as [_ ->]. by eexists _, _.
Qed.

(** A pull the daemon rejects ends [IsContainerStale]: it returns the
    pull's error with staleness false, and the pull is its only call, so
    the image is never inspected. *)
Theorem IsContainerStale_pull_failure c (w : World D) ref opts e :
  let out := IsContainerStale client c w in
  In (EvImagePull ref opts (Err e)) (emitted w out.2) ->
  out.1 = (false, Some e)
  /\ emitted w out.2 = [EvImagePull ref opts (Err e)].
Proof.
  intros out Hin. subst out.
  pose proof (IsContainerStale_trace client c w) as Htr. cbv zeta in Htr.
  destruct (pullImages client).
  - destruct (EncodedAuth _ _) as [auth | e'].
    + destruct Htr as [[response | e'] Htr].
      * destruct Htr as (drained & r & _ & Hev). rewrite Hev in Hin.
        destruct Hin as [Hin | [Hin | [Hin | [Hin | []]]]]; discriminate.
      * destruct Htr as [Hout Hev]. rewrite Hev in Hin |- *.
        destruct Hin as [Hin | []]. injection Hin as <- <- <-. by split.
    + destruct Htr as [_ Hev]. rewrite Hev in Hin. destruct Hin.
  - destruct Htr as (r & _ & Hev). rewrite Hev in Hin.
    destruct Hin as [Hin | []]. discriminate.
Qed.

(** The response of every pull that succeeded is closed, once, as the last
    call of [IsContainerStale], whatever the read of the response and the
    inspection of the image gave. *)
Theorem IsContainerStale_closes_response c (w : World D) ref opts response :
  let out := IsContainerStale client c w in
  In (EvImagePull ref opts (Ok response)) (emitted w out.2) ->
  exists pre,
    emitted w out.2 = pre ++ [EvClose response]
    /\ List.filter isClose pre = [].
Proof.
  intros out Hin. subst out.
  pose proof (IsContainerStale_trace client c w) as Htr. cbv zeta in Htr.
  destruct (pullImages client).
  - destruct (EncodedAuth _ _) as [auth | e'].
    + destruct Htr as [[response' | e'] Htr].
      * destruct Htr as (drained & r & _ & Hev). rewrite Hev in Hin |- *.
        destruct Hin as [Hin | [Hin | [Hin | [Hin | []]]]]; try discriminate.
        injection Hin as _ _ ->.
        by exists [EvImagePull (ImageName c)
                     (if String.eqb auth "" then ImagePullOptions.zero
                      else ImagePullOptions.mk auth (Some DefaultAuthHandler))
                     (Ok response);
                   EvReadAll response drained;
                   EvImageInspectWithRaw (ImageName c) r].
      * destruct Htr as [_ Hev]. rewrite Hev in Hin.
        destruct Hin as [Hin | []]. discriminate.
    + destruct Htr as [_ Hev]. rewrite Hev in Hin. destruct Hin.
  - destruct Htr as (r & _ & Hev). rewrite Hev in Hin.
    destruct Hin as [Hin | []]. discriminate.
Qed.

(** With pulling disabled [IsContainerStale] makes one daemon call, the
    inspection of the image reference: it pulls nothing and has nothing to
    close. *)
Theorem IsContainerStale_local_only c (w : World D) :
  pullImages client = false ->
  let out := IsContainerStale client c w in
  exists answer,
    emitted w out.2 = [EvImageInspectWithRaw (ImageName c) answer].
Proof.
  intros Hpull out. subst out.
  pose proof (IsContainerStale_trace client c w) as Htr. cbv zeta in Htr.
  rewrite Hpull in Htr. destruct Htr as (r & _ & ->). by exists r.
Qed.

(** [IsContainerStale] never reports a container stale together with an
    error: whenever the error is not nil the staleness is false. *)
Theorem IsContainerStale_error_not_stale c (w : World D) stale e :
  (IsContainerStale client c w).1 = (stale, Some e) -> stale = false.
Proof.
  intros Hout.
  destruct (IsContainerStale_inspection client c w)
    as [(r & Hr & _) | (e' & He' & _)]; cbv zeta in *.
  - rewrite Hr in Hout. destruct r; [discriminate |]. by injection Hout as <-.
  - rewrite He' in Hout. by injection Hout as <-.
Qed.

(** With pulling disabled, a snapshot just taken by [GetContainer] is
    reported stale exactly when the image its name resolves to now has
    another id than the image its [Image] field resolved to when the
    snapshot was taken. *)
Theorem fresh_snapshot_staleness id (w w1 : World D) c info :
  GetContainer client id w = (Ok c, w1) ->
  pullImages client = false ->
  reply (ImageInspectWithRaw (api client) (ImageName c) (daemon w1)) = Ok info ->
  emitted w w1 =
    [EvContainerInspect id (Ok (containerInfo c));
     EvImageInspectWithRaw (ContainerJSON.Image (containerInfo c))
       (Ok (imageInfo c))]
  /\ (IsContainerStale client c w1).1 =
       (negb (String.eqb (ImageInspect.ID info)
                         (ImageInspect.ID (imageInfo c))), None).
Proof.
  intros Hget Hpull Hinfo. split.
  - pose proof (GetContainer_snapshot client id w) as Hsnap.
    cbv zeta in Hsnap. by rewrite Hget in Hsnap.
  - unfold IsContainerStale, bind, ret, call, reply in *. rewrite Hpull.
    destruct (ImageInspectWithRaw _ _ _) as [[r d] dt]. simpl in Hinfo.
    subst r. simpl. by destruct (negb _).
Qed.

End StaleMore.

Section ExecMore.

Context {D : Type}.
Variable client : dockerClient D.

(** The calls of a run of [ExecuteCommand], with what it returns. *)
Lemma ExecuteCommand_calls containerID command (w : World D) :
  let out := ExecuteCommand client containerID command w in
  let create :=
    EvContainerExecCreate containerID
      (ExecConfig.mk true true true false ["sh"; "-c"; command]) in
  let attach execID :=
    EvContainerExecAttach execID (ExecConfig.mk true true true false []) in
  let start execID :=
    EvContainerExecStart execID (ExecStartCheck.mk false true) in
  exists created,
    match created with
    | Err e => out.1 = Some e /\ emitted w out.2 = [create (Err e)]
    | Ok execID =>
        exists attached started,
          match started with
          | Some e =>
              out.1 = Some e
              /\ emitted w out.2 =
                   [create (Ok execID); attach execID attached;
                    start execID (Some e)]
          | None =>
              exists inspected reads,
                out.1 = match inspected with Err e => Some e | Ok _ => None end
                /\ match attached with
                   | Ok response => exists rd, reads = [EvReadFrom response rd]
                   | Err _ => reads = []
                   end
                /\ emitted w out.2 =
                     [create (Ok execID); attach execID attached;
                      start execID None]
                     ++ reads
                     ++ [EvContainerExecInspect execID inspected]
                     ++ match attached with
                        | Ok response => [EvClose response]
                        | Err _ => []
                        end
          end
    end.
Proof.
  unfold ExecuteCommand, bind, ret, log.Infof, log.Errorf, log.Error, write.
  simpl.
  step_call created w1. exists created.
  destruct created as [execID | e]; simpl.
  2: { split; [done |]. by apply emitted_app. }
  step_call attached w2. exists attached.
  destruct attached as [response | attachErr]; simpl.
  all: step_call started w3; exists started;
    destruct started as [startErr |]; simpl.
  all: try (split; [done |]; apply emitted_app; simpl;
            rewrite Ht1, Ht0, Ht; rewrite <- ?app_assoc; reflexivity).
  - step_call rd w4.
    destruct rd as [[n contents] [readErr |]]; simpl;
      [| destruct (0 <? n); simpl].
    all: step_call inspected w5;
      match goal with
      | H : trace _ = _ ++ [EvReadFrom ?a ?b],
        H' : trace _ = _ ++ [EvContainerExecInspect _ ?i] |- _ =>
          exists i, [EvReadFrom a b]
      end;
      destruct inspected as [exitCode | inspectErr]; simpl;
      [destruct (0 <? exitCode); simpl;
       [| try match goal with
              | |- context [(0 <? String.length (TrimSpace ?a ?o))%nat] =>
                  destruct (0 <? String.length (TrimSpace a o))%nat; simpl
              end] |].
    all: step_call closed w6.
    all: split; [done |]; split; [by eexists |]; apply emitted_app; simpl.
    all: repeat match goal with
                | H : trace _ = _ |- _ => rewrite H; clear H
                end;
      rewrite <- ?app_assoc; reflexivity.
  - step_call inspected w5. exists inspected, [].
    destruct inspected as [exitCode | inspectErr]; simpl;
      [destruct (0 <? exitCode); simpl |].
    all: split; [done |]; split; [done |]; apply emitted_app; simpl.
    all: repeat match goal with
                | H : trace _ = _ |- _ => rewrite H; clear H
                end;
      rewrite <- ?app_assoc; reflexivity.
Qed.

(** Split a membership in an explicit list into its cases. *)
Ltac in_cases H :=
  simpl in H;
  repeat match type of H with
         | _ \/ _ => destruct H as [H | H]
         | False => destruct H
         end.

(** [ExecuteCommand] runs the command through [sh -c], on a terminal, with
    both output streams attached and not detached.  If the session cannot
    be created that is all it does, and it returns the error.  Otherwise its
    next call attaches to the session the daemon created, and every call
    after that names that session or reads or closes the stream that this
    attach handed out, and no other stream; after a failed attach nothing
    is read or closed. *)
Theorem ExecuteCommand_session containerID command (w : World D) :
  let out := ExecuteCommand client containerID command w in
  exists created rest,
    emitted w out.2 =
      EvContainerExecCreate containerID
        {| ExecConfig.Tty := true;
           ExecConfig.AttachStderr := true;
           ExecConfig.AttachStdout := true;
           ExecConfig.Detach := false;
           ExecConfig.Cmd := ["sh"; "-c"; command] |} created :: rest
    /\ match created with
       | Err e => rest = [] /\ out.1 = Some e
       | Ok execID =>
           exists attached later,
             rest =
               EvContainerExecAttach execID
                 {| ExecConfig.Tty := true;
                    ExecConfig.AttachStderr := true;
                    ExecConfig.AttachStdout := true;
                    ExecConfig.Detach := false;
                    ExecConfig.Cmd := [] |} attached :: later
             /\ forallb (onSession execID (attachedStream attached)) later
                = true
       end.
Proof.
  intros out. subst out.
  destruct (ExecuteCommand_calls containerID command w) as [created Hcalls].
  cbv zeta in Hcalls. exists created.
  destruct created as [execID | e].
  - destruct Hcalls as (attached & [e |] & Hcalls).
    + destruct Hcalls as [_ ->]. eexists. split; [done |].
      eexists attached, _. split; [done |]. simpl.
      by rewrite !String.eqb_refl.
    + destruct Hcalls as (inspected & reads & _ & Hreads & ->).
      eexists. split; [done |]. eexists attached, _. split; [done |].
      simpl. rewrite !String.eqb_refl. simpl.
      destruct attached as [response | attachErr].
      * destruct Hreads as [rd ->]. simpl.
        by rewrite String.eqb_refl, !Nat.eqb_refl.
      * rewrite Hreads. simpl. by rewrite String.eqb_refl.
  - destruct Hcalls as [Hout ->]. by exists [].
Qed.

(** The stream attached to the session is closed, once, as the last call,
    exactly when the attach succeeded and the start was accepted.  When the
    start is rejected [ExecuteCommand] returns at once, before it registers
    the close: the attached stream is left open.  When the attach failed
    there is no stream and nothing is closed. *)
Theorem ExecuteCommand_stream_closed containerID command (w : World D)
    execID config attached check started :
  let out := ExecuteCommand client containerID command w in
  In (EvContainerExecAttach execID config attached) (emitted w out.2) ->
  In (EvContainerExecStart execID check started) (emitted w out.2) ->
  match attached, started with
  | Ok response, None =>
      exists pre,
        emitted w out.2 = pre ++ [EvClose response]
        /\ List.filter isClose pre = []
  | _, _ => List.filter isClose (emitted w out.2) = []
  end.
Proof.
  intros out Hattach Hstart. subst out.
  destruct (ExecuteCommand_calls containerID command w) as [created Hcalls].
  cbv zeta in Hcalls.
  destruct created as [execID' | e].
  2: { destruct Hcalls as [_ Hev]. rewrite Hev in Hattach.
       in_cases Hattach. discriminate. }
  destruct Hcalls as (attached' & [e |] & Hcalls).
  - destruct Hcalls as [_ Hev]. rewrite Hev in Hattach, Hstart |- *.
    in_cases Hattach; try discriminate. in_cases Hstart; try discriminate.
    injection Hattach as _ _ ->. injection Hstart as _ _ <-.
    by destruct attached.
  - destruct Hcalls as (inspected & reads & _ & Hreads & Hev).
    rewrite Hev in Hattach, Hstart |- *.
    destruct attached' as [response | attachErr].
    + destruct Hreads as [rd ->].
      in_cases Hattach; try discriminate. in_cases Hstart; try discriminate.
      injection Hattach as _ _ <-. injection Hstart as _ _ <-.
      by eexists [_; _; _; _; _].
    + rewrite Hreads in *.
      in_cases Hattach; try discriminate. in_cases Hstart; try discriminate.
      injection Hattach as _ _ <-. by injection Hstart as _ _ <-.
Qed.

(** A failed attach does not stop [ExecuteCommand]: it goes on to start the
    session, reads no output, and what it returns is decided by the start
    and by the inspection of the session alone. *)
Theorem ExecuteCommand_attach_failure containerID command (w : World D)
    execID config attachErr :
  let out := ExecuteCommand client containerID command w in
  In (EvContainerExecAttach execID config (Err attachErr)) (emitted w out.2) ->
  (forall response rd, ~ In (EvReadFrom response rd) (emitted w out.2))
  /\ exists check started,
       In (EvContainerExecStart execID check started) (emitted w out.2)
       /\ match started with
          | Some e => out.1 = Some e
          | None =>
              exists inspected,
                In (EvContainerExecInspect execID inspected) (emitted w out.2)
                /\ out.1 = match inspected with
                           | Err e => Some e
                           | Ok _ => None
                           end
          end.
Proof.
  intros out Hattach. subst out.
  destruct (ExecuteCommand_calls containerID command w) as [created Hcalls].
  cbv zeta in Hcalls.
  destruct created as [execID' | e].
  2: { destruct Hcalls as [_ Hev]. rewrite Hev in Hattach.
       in_cases Hattach. discriminate. }
  destruct Hcalls as (attached' & [e |] & Hcalls).
  - destruct Hcalls as [Hout Hev]. rewrite Hev in Hattach |- *.
    in_cases Hattach; try discriminate. injection Hattach as -> _ ->.
    split.
    + intros response rd Hin. in_cases Hin; discriminate.
    + eexists _, (Some e). split; [| done]. simpl. auto.
  - destruct Hcalls as (inspected & reads & Hout & Hreads & Hev).
    rewrite Hev in Hattach |- *.
    destruct attached' as [response | attachErr'].
    + destruct Hreads as [rd ->]. in_cases Hattach; discriminate.
    + rewrite Hreads in *. in_cases Hattach; try discriminate.
      injection Hattach as -> _ ->. split.
      * intros response rd Hin. in_cases Hin; discriminate.
      * eexists _, None. split; [simpl; auto |].
        exists inspected. split; [simpl; auto | done].
Qed.

End ExecMore.

Section MoreRuns.

#[local] Existing Instance Mock.methods.
#[local] Existing Instance Mock.prompt.

Lemma ListContainers_list_failure_witness :
  (ListContainers (Mock.client Mock.obliging true) MockList.failing
     MockList.onlyC9 Mock.start).1
  = Err (ErrDaemon "Cannot connect to the Docker daemon").
Proof.
  apply (ListContainers_list_failure (Mock.client Mock.obliging true)
           MockList.failing MockList.onlyC9 Mock.start). reflexivity.
Defined.

Lemma ListContainers_filtered_witness :
  exists (running : list ContainerSummary.t) (all : list Container),
    length all = length running
    /\ [NewContainer (Mock.info "c9" true) (ImageInspect.mk "sha256:aaa" [])]
       = List.filter MockList.onlyC9 all
    /\ length
         (emitted Mock.start
            (ListContainers (Mock.client Mock.obliging true) MockList.two
               MockList.onlyC9 Mock.start).2) = 4%nat.
Proof.
  destruct (ListContainers_filtered (Mock.client Mock.obliging true)
              MockList.two MockList.onlyC9 Mock.start
              [NewContainer (Mock.info "c9" true)
                 (ImageInspect.mk "sha256:aaa" [])] eq_refl)
    as (running & all & _ & Hlen & Hcs & Hev).
  exists running, all. split; [exact Hlen |]. split; [exact Hcs |].
  reflexivity.
Defined.

Lemma ListContainers_snapshot_failure_witness :
  exists pre last,
    emitted Mock.start
      (ListContainers (Mock.client Mock.vanished true) MockList.two
         MockList.onlyC9 Mock.start).2 = pre ++ [last]
    /\ rejection last = Some (ErrNotFound "No such container").
Proof.
  destruct (ListContainers_snapshot_failure (Mock.client Mock.vanished true)
              MockList.two MockList.onlyC9 Mock.start _
              (ErrNotFound "No such container") eq_refl eq_refl)
    as (pre & last & Hev & Hlast & _).
  by exists pre, last.
Defined.

Lemma waitForStop_polls_bounded_witness :
  (Z.of_nat
     (length
        (emitted Mock.start
           (waitForStop (Mock.client Mock.obliging true) Mock.web
              (3 * Second) Mock.start).2)) - 1) * Second < 3 * Second.
Proof.
  assert (0 < 3 * Second) as Hpos by (unfold Second; lia).
  exact (proj1 (waitForStop_polls_bounded (Mock.client Mock.obliging true)
                  Mock.web (3 * Second) Mock.start Hpos)).
Defined.

(** A container that keeps running is inspected three times in a wait of
    three seconds. *)
Example waitForStop_three_polls :
  length
    (emitted Mock.start
       (waitForStop (Mock.client Mock.obliging true) Mock.web (3 * Second)
          Mock.start).2) = 3%nat
  /\ (waitForStop (Mock.client Mock.obliging true) Mock.web (3 * Second)
        Mock.start).1 = None.
Proof. split; reflexivity. Qed.

Lemma StopContainer_calls_bounded_witness :
  Z.of_nat
    (length
       (emitted Mock.start
          (StopContainer (Mock.client Mock.stubborn true) Mock.web
             (3 * Second) Mock.start).2))
  <= 2 * (3 * Second / Second + 1) + 2.
Proof.
  assert (0 <= 3 * Second) as Hpos by (unfold Second; lia).
  exact (StopContainer_calls_bounded (Mock.client Mock.stubborn true)
           Mock.web (3 * Second) Mock.start Hpos).
Defined.

Lemma StartContainer_returns_created_witness :
  exists simple between,
    emitted Mock.start
      (StartContainer (runtime := Mock.runtime)
         (Mock.client Mock.obliging true) Mock.web Mock.start).2
    = EvContainerCreate (Config.mk "web:latest" [] [] ∅)
        (HostConfig.mk false "bridge" []) simple "web" (Ok "c2")
      :: between ++ [EvContainerStart "c2" None]
    /\ forallb isNetworkCall between = true.
Proof.
  exact (StartContainer_returns_created (runtime := Mock.runtime)
           (Mock.client Mock.obliging true) Mock.web Mock.start eq_refl).
Defined.

Lemma IsContainerStale_pull_options_witness :
  (exists answer rest,
     emitted Mock.start
       (IsContainerStale (Mock.client Mock.obliging true) Mock.web
          Mock.start).2
     = EvImagePull "web:latest" (ImagePullOptions.mk "" None) answer :: rest)
  /\ (exists answer rest,
        emitted Mock.start
          (IsContainerStale (Mock.client MockList.withCredentials true)
             Mock.web Mock.start).2
        = EvImagePull "web:latest"
            (ImagePullOptions.mk "dXNlcjpwdw==" (Some DefaultAuthHandler))
            answer :: rest).
Proof.
  split.
  - exact (IsContainerStale_pull_options (Mock.client Mock.obliging true)
             Mock.web Mock.start "" eq_refl eq_refl).
  - exact (IsContainerStale_pull_options
             (Mock.client MockList.withCredentials true) Mock.web Mock.start
             "dXNlcjpwdw==" eq_refl eq_refl).
Defined.

Lemma IsContainerStale_pull_failure_witness :
  (IsContainerStale (Mock.client MockList.noPull true) Mock.web Mock.start).1
  = (false, Some (ErrDaemon "manifest unknown")).
Proof.
  assert (In (EvImagePull "web:latest" ImagePullOptions.zero
                (Err (ErrDaemon "manifest unknown")))
             (emitted Mock.start
                (IsContainerStale (Mock.client MockList.noPull true) Mock.web
                   Mock.start).2)) as Hin by (vm_compute; auto).
  exact (proj1 (IsContainerStale_pull_failure
                  (Mock.client MockList.noPull true) Mock.web Mock.start
                  _ _ _ Hin)).
Defined.

Lemma IsContainerStale_closes_response_witness :
  exists pre,
    emitted Mock.start
      (IsContainerStale
         (Mock.client (Mock.withDrain (Some (ErrDaemon "unexpected EOF"))
                         Mock.obliging) true)
         Mock.web Mock.start).2
    = pre ++ [EvClose 1%nat]
    /\ List.filter isClose pre = [].
Proof.
  assert (In (EvImagePull "web:latest" ImagePullOptions.zero (Ok 1%nat))
             (emitted Mock.start
                (IsContainerStale
                   (Mock.client
                      (Mock.withDrain (Some (ErrDaemon "unexpected EOF"))
                         Mock.obliging) true)
                   Mock.web Mock.start).2)) as Hin by (vm_compute; auto).
  exact (IsContainerStale_closes_response _ Mock.web Mock.start _ _ _ Hin).
Defined.

Lemma IsContainerStale_local_only_witness :
  exists answer,
    emitted Mock.start
      (IsContainerStale (Mock.client Mock.obliging false) Mock.web
         Mock.start).2
    = [EvImageInspectWithRaw "web:latest" answer].
Proof.
  exact (IsContainerStale_local_only (Mock.client Mock.obliging false)
           Mock.web Mock.start eq_refl).
Defined.

Lemma IsContainerStale_error_not_stale_witness :
  (IsContainerStale (Mock.client MockList.noPull true) Mock.web Mock.start).1
  = (false, Some (ErrDaemon "manifest unknown"))
  /\ false = false.
Proof.
  split; [reflexivity |].
  exact (IsContainerStale_error_not_stale (Mock.client MockList.noPull true)
           Mock.web Mock.start false (ErrDaemon "manifest unknown") eq_refl).
Defined.

Lemma fresh_snapshot_staleness_witness :
  (IsContainerStale (Mock.client Mock.obliging false)
     (NewContainer (Mock.info "c1" true) (ImageInspect.mk "sha256:aaa" []))
     (GetContainer (Mock.client Mock.obliging false) "c1" Mock.start).2).1
  = (false, None).
Proof.
  exact (proj2 (fresh_snapshot_staleness (Mock.client Mock.obliging false)
                  "c1" Mock.start _ _ (ImageInspect.mk "sha256:aaa" [])
                  eq_refl eq_refl eq_refl)).
Defined.

Lemma ExecuteCommand_stream_closed_witness :
  (exists pre,
     emitted Mock.start
       (ExecuteCommand (Mock.client Mock.obliging true) "c1" "hook.sh"
          Mock.start).2 = pre ++ [EvClose 2%nat]
     /\ List.filter isClose pre = [])
  /\ List.filter isClose
       (emitted Mock.start
          (ExecuteCommand (Mock.client MockList.noAttach true) "c1" "hook.sh"
             Mock.start).2) = [].
Proof.
  split.
  - apply (ExecuteCommand_stream_closed (Mock.client Mock.obliging true)
             "c1" "hook.sh" Mock.start "exec1"
             (ExecConfig.mk true true true false []) (Ok 2%nat)
             (ExecStartCheck.mk false true) None);
      vm_compute; auto.
  - apply (ExecuteCommand_stream_closed (Mock.client MockList.noAttach true)
             "c1" "hook.sh" Mock.start "exec1"
             (ExecConfig.mk true true true false [])
             (Err (ErrDaemon "connection hijack failed"))
             (ExecStartCheck.mk false true) None);
      vm_compute; auto.
Defined.

Lemma ExecuteCommand_attach_failure_witness :
  (forall response rd,
     ~ In (EvReadFrom response rd)
          (emitted Mock.start
             (ExecuteCommand (Mock.client MockList.noAttach true) "c1"
                "hook.sh" Mock.start).2))
  /\ (ExecuteCommand (Mock.client MockList.noAttach true) "c1" "hook.sh"
        Mock.start).1 = None.
Proof.
  assert (In (EvContainerExecAttach "exec1"
                (ExecConfig.mk true true true false [])
                (Err (ErrDaemon "connection hijack failed")))
             (emitted Mock.start
                (ExecuteCommand (Mock.client MockList.noAttach true) "c1"
                   "hook.sh" Mock.start).2)) as Hin by (vm_compute; auto).
  destruct (ExecuteCommand_attach_failure (Mock.client MockList.noAttach true)
              "c1" "hook.sh" Mock.start _ _ _ Hin) as [Hnoread _].
  split; [exact Hnoread | reflexivity].
Defined.

End MoreRuns.

Section MockFacts.

Lemma length_append (s t : string) :
  String.length (s +:+ t) = (String.length s + String.length t)%nat.
Proof.
  induction s as [| a s IH]; [done |].
  change (S (String.length (s +:+ t))
          = S (String.length s + String.length t)).
  by rewrite IH.
Qed.

Lemma append_assoc (s t u : string) : (s +:+ t) +:+ u = s +:+ (t +:+ u).
Proof.
  induction s as [| a s IH]; [done |].
  change (String a ((s +:+ t) +:+ u) = String a (s +:+ (t +:+ u))).
  by rewrite IH.
Qed.

Lemma length_repeated_zero n : String.length (repeated "0" n) = n.
Proof.
  induction n as [| n IH]; [done |].
  change (S (String.length (repeated "0" n)) = S n). by rewrite IH.
Qed.

Lemma repeated_add s n m :
  repeated s (n + m) = repeated s n +:+ repeated s m.
Proof.
  induction n as [| n IH]; [done |].
  change (s +:+ repeated s (n + m)
          = (s +:+ repeated s n) +:+ repeated s m).
  rewrite IH. symmetry. apply append_assoc.
Qed.

(** A number written with [n] more digits after those read so far is at
    least the number read so far times ten to the [n]. *)
Lemma of_uint_acc_lower d acc :
  Z.pos acc * 10 ^ Z.of_nat (Decimal.nb_digits d)
  <= Z.pos (Pos.of_uint_acc d acc).
Proof.
  revert acc. induction d as [| d IH | d IH | d IH | d IH | d IH | d IH
                              | d IH | d IH | d IH | d IH]; intros acc.
  { simpl. lia. }
  all: cbn [Pos.of_uint_acc Decimal.nb_digits];
    rewrite Nat2Z.inj_succ, Z.pow_succ_r by lia;
    etransitivity; [| apply IH];
    assert (0 < 10 ^ Z.of_nat (Decimal.nb_digits d))
      by (apply Z.pow_pos_nonneg; lia);
    nia.
Qed.

(** The decimal digits of a positive number are no more than its size
    allows: a number of [n] digits is at least ten to the [n - 1]. *)
Lemma to_uint_lower p :
  10 ^ (Z.of_nat (Decimal.nb_digits (Pos.to_uint p)) - 1) <= Z.pos p.
Proof.
  pose proof (DecimalPos.Unsigned.of_to p) as Hof.
  pose proof (DecimalPos.Unsigned.to_of (Pos.to_uint p)) as Hnorm.
  rewrite Hof in Hnorm. simpl in Hnorm.
  pose proof (DecimalPos.Unsigned.to_uint_nonzero p) as Hnz.
  destruct (Pos.to_uint p) as [| d | d | d | d | d | d | d | d | d | d]
    eqn:Hd.
  { simpl in Hof. discriminate. }
  { rewrite DecimalFacts.unorm_D0 in Hnorm.
    destruct d as [| d | d | d | d | d | d | d | d | d | d];
      [done | ..].
    all: match goal with
         | H : _ = Decimal.unorm ?u |- _ =>
             assert (u <> Decimal.Nil) as Hu by discriminate;
             pose proof (DecimalFacts.nb_digits_unorm u Hu) as Hle;
             rewrite <- H in Hle; simpl in Hle; lia
         end. }
  all: cbn [Pos.of_uint] in Hof; injection Hof as <-;
    cbn [Decimal.nb_digits];
    rewrite Nat2Z.inj_succ;
    replace (Z.succ (Z.of_nat (Decimal.nb_digits d)) - 1)
      with (Z.of_nat (Decimal.nb_digits d)) by lia;
    etransitivity; [| apply of_uint_acc_lower];
    assert (0 < 10 ^ Z.of_nat (Decimal.nb_digits d))
      by (apply Z.pow_pos_nonneg; lia);
    lia.
Qed.

Lemma length_string_of_uint d :
  String.length (NilEmpty.string_of_uint d) = Decimal.nb_digits d.
Proof. induction d; simpl; congruence. Qed.

Lemma to_uint_digits p :
  Z.pos p < 10 ^ 19 ->
  (String.length (NilZero.string_of_uint (Pos.to_uint p)) <= 19)%nat.
Proof.
  intros Hp. pose proof (to_uint_lower p) as Hlow.
  assert (String.length (NilZero.string_of_uint (Pos.to_uint p))
          = Decimal.nb_digits (Pos.to_uint p)) as ->.
  { pose proof (DecimalPos.Unsigned.to_uint_nonnil p).
    unfold NilZero.string_of_uint.
    destruct (Pos.to_uint p); [done | ..]; apply length_string_of_uint. }
  destruct (Nat.le_gt_cases (Decimal.nb_digits (Pos.to_uint p)) 19)
    as [| Hmany]; [done |].
  assert (10 ^ 19 <= 10 ^ (Z.of_nat (Decimal.nb_digits (Pos.to_uint p)) - 1))
    by (apply Z.pow_le_mono_r; lia).
  lia.
Qed.

(** A 64-bit integer is written with at most 19 digits and a sign. *)
Lemma length_Itoa z : (String.length (Itoa (int64 z)) <= 20)%nat.
Proof.
  assert (- 2 ^ 63 <= int64 z < 2 ^ 63) as Hrange.
  { unfold int64. pose proof (Z.mod_pos_bound (z + 2 ^ 63) (2 ^ 64)). lia. }
  unfold Itoa. destruct (int64 z) as [| p | p]; simpl.
  - lia.
  - pose proof (to_uint_digits p). lia.
  - pose proof (to_uint_digits p). lia.
Qed.

Variable Sprintf : string -> Z -> string.
Variable Now : string.

(** [CreateContainerForProgress] never panics: a 64-bit number is written
    with 20 characters at most, so the count handed to [strings.Repeat],
    61 less that length, is never negative.  It pads the number with 41
    zeros or more to 61 characters, and the container id, the container's
    image id and the new image id it returns are 64 characters long each:
    the prefixes "c79", "01d" and "d0a" before that common tail. *)
Theorem CreateContainerForProgress_ids index idPrefix nameFormat :
  let indexStr := Itoa (int64 (idPrefix + index)) in
  exists c newImgID,
    mocks.CreateContainerForProgress Sprintf Now index idPrefix nameFormat
    = Some (c, newImgID)
    /\ exists padding,
         let mockID := indexStr +:+ repeated "0" padding in
         (41 <= padding)%nat
         /\ String.length mockID = 61%nat
         /\ mocks.ID (mocks.containerInfo c) = "c79" +:+ mockID
         /\ mocks.Image (mocks.containerInfo c) = "01d" +:+ mockID
         /\ ImageInspect.ID (mocks.imageInfo c) = "01d" +:+ mockID
         /\ newImgID = "d0a" +:+ mockID
         /\ String.length (mocks.ID (mocks.containerInfo c)) = 64%nat
         /\ String.length (ImageInspect.ID (mocks.imageInfo c)) = 64%nat
         /\ String.length newImgID = 64%nat.
Proof.
  intros indexStr. unfold mocks.CreateContainerForProgress, Repeat.
  fold indexStr.
  pose proof (length_Itoa (idPrefix + index)) as Hshort. fold indexStr in Hshort.
  destruct (Z.ltb_spec (61 - Z.of_nat (String.length indexStr)) 0); [lia |].
  eexists _, _. split; [reflexivity |].
  exists (Z.to_nat (61 - Z.of_nat (String.length indexStr))).
  assert (String.length
            (indexStr +:+
             repeated "0"
               (Z.to_nat (61 - Z.of_nat (String.length indexStr))))
          = 61%nat) as Hlen.
  { rewrite length_append, length_repeated_zero. lia. }
  cbv zeta.
  cbn [mocks.ID mocks.Image mocks.containerInfo mocks.imageInfo
       mocks.CreateMockContainerWithConfig ImageInspect.ID].
  split; [lia |].
  repeat split; try done; by rewrite length_append, Hlen.
Qed.

(** The container [CreateContainerForProgress] makes is running and not
    restarting, carries one image id both as its image and as the id of its
    image inspection, and that id is never the new image id returned with
    it: compared with the new id the container is stale. *)
Theorem CreateContainerForProgress_stale index idPrefix nameFormat c newImgID :
  mocks.CreateContainerForProgress Sprintf Now index idPrefix nameFormat
  = Some (c, newImgID) ->
  mocks.State (mocks.containerInfo c) = Some (ContainerState.mk true false)
  /\ mocks.Image (mocks.containerInfo c) = ImageInspect.ID (mocks.imageInfo c)
  /\ String.eqb newImgID (ImageInspect.ID (mocks.imageInfo c)) = false.
Proof.
  unfold mocks.CreateContainerForProgress.
  destruct (Repeat _ _) as [zeros |]; [| done].
  intros [= <- <-]. by repeat split.
Qed.

(** The ids are not one per number: two numbers whose renderings differ
    only by zeros at the end of one of them get the same container id, the
    same image id and the same new image id. *)
Theorem CreateContainerForProgress_collision index idPrefix index' idPrefix'
    nameFormat nameFormat' k c newImgID c' newImgID' :
  Itoa (int64 (idPrefix' + index'))
  = Itoa (int64 (idPrefix + index)) +:+ repeated "0" k ->
  mocks.CreateContainerForProgress Sprintf Now index idPrefix nameFormat
  = Some (c, newImgID) ->
  mocks.CreateContainerForProgress Sprintf Now index' idPrefix' nameFormat'
  = Some (c', newImgID') ->
  mocks.ID (mocks.containerInfo c') = mocks.ID (mocks.containerInfo c)
  /\ ImageInspect.ID (mocks.imageInfo c') = ImageInspect.ID (mocks.imageInfo c)
  /\ newImgID' = newImgID.
Proof.
  intros Hzeros. unfold mocks.CreateContainerForProgress, Repeat.
  rewrite Hzeros, length_append, length_repeated_zero.
  set (n := String.length (Itoa (int64 (idPrefix + index)))).
  destruct (Z.ltb_spec (61 - Z.of_nat n) 0); [done |].
  destruct (Z.ltb_spec (61 - Z.of_nat (n + k)) 0); [done |].
  intros [= <- <-] [= <- <-].
  assert ((Itoa (int64 (idPrefix + index)) +:+ repeated "0" k)
          +:+ repeated "0" (Z.to_nat (61 - Z.of_nat (n + k)))
          = Itoa (int64 (idPrefix + index))
            +:+ repeated "0" (Z.to_nat (61 - Z.of_nat n))) as ->.
  { rewrite append_assoc, <- repeated_add. do 2 f_equal. lia. }
  by repeat split.
Qed.

End MockFacts.

Section MockRuns.

Lemma CreateContainerForProgress_stale_witness :
  match mocks.CreateContainerForProgress (fun f n => f +:+ Itoa n) "now" 1 0
          "container-" with
  | Some (c, newImgID) =>
      String.eqb newImgID (ImageInspect.ID (mocks.imageInfo c)) = false
  | None => False
  end.
Proof.
  destruct (mocks.CreateContainerForProgress (fun f n => f +:+ Itoa n) "now"
              1 0 "container-") as [[c newImgID] |] eqn:Hmade.
  - exact (proj2 (proj2 (CreateContainerForProgress_stale _ _ _ _ _ _ _
                           Hmade))).
  - discriminate Hmade.
Defined.

Lemma CreateContainerForProgress_collision_witness :
  match mocks.CreateContainerForProgress (fun f n => f +:+ Itoa n) "now" 1 0
          "container-",
        mocks.CreateContainerForProgress (fun f n => f +:+ Itoa n) "now" 10 0
          "container-" with
  | Some (c, _), Some (c', _) =>
      mocks.ID (mocks.containerInfo c') = mocks.ID (mocks.containerInfo c)
      /\ mocks.Name (mocks.containerInfo c')
         <> mocks.Name (mocks.containerInfo c)
  | _, _ => False
  end.
Proof.
  destruct (mocks.CreateContainerForProgress (fun f n => f +:+ Itoa n) "now"
              1 0 "container-") as [[c newImgID] |] eqn:Hone;
    [| discriminate Hone].
  destruct (mocks.CreateContainerForProgress (fun f n => f +:+ Itoa n) "now"
              10 0 "container-") as [[c' newImgID'] |] eqn:Hten;
    [| discriminate Hten].
  assert (Itoa (int64 (0 + 10)) = Itoa (int64 (0 + 1)) +:+ repeated "0" 1)
    as Hzeros by reflexivity.
  split.
  - exact (proj1 (CreateContainerForProgress_collision _ _ _ _ _ _ _ _ _ _ _
                    _ _ Hzeros Hone Hten)).
  - vm_compute in Hone, Hten. injection Hone as <- _. injection Hten as <- _.
    discriminate.
Defined.

End MockRuns.
